(** * RT.Backend - OAuth: a shallow embedding of [backend/oauth.py]

    The class [DiscordOAuth] guards Sanic routes with Discord's OAuth2
    authorization-code flow.  The embedding keeps the object's fields in a
    record that is threaded through a small state-and-exception monad, and
    records every call to an external collaborator (Discord's HTTP API, the
    bot's [fetch_user], the wrapped route) in a trace, so that statements
    such as "no provider call is made" are statements about that trace. *)

From stdpp Require Import base option list strings gmap.
From Stdlib Require Import ZArith Ascii String.

Local Open Scope string_scope.
Local Open Scope Z_scope.

(** ** Python strings *)

Module PyStr.

Fixpoint take (n : nat) (s : string) : string :=
  match n, s with
  | S n', String c s' => String c (take n' s')
  | _, _ => EmptyString
  end.

Fixpoint drop (n : nat) (s : string) : string :=
  match n, s with
  | S n', String _ s' => drop n' s'
  | _, _ => s
  end.

(** [s.find(c)] for a one-character pattern: the index of the first
    occurrence, or [-1]. *)
Fixpoint find (c : ascii) (s : string) : Z :=
  match s with
  | EmptyString => -1
  | String a s' =>
      if Ascii.eqb a c then 0
      else let i := find c s' in if i <? 0 then -1 else i + 1
  end.

Definition len (s : string) : Z := Z.of_nat (String.length s).

(** A slice bound [i] as Python resolves it: negative bounds count from
    the end, and the result is clipped to [0 .. len s]. *)
Definition bound (s : string) (i : Z) : nat :=
  Z.to_nat (Z.min (len s) (if i <? 0 then Z.max 0 (len s + i) else i)).

(** [s[:i]] and [s[i:]]. *)
Definition slice_to (s : string) (i : Z) : string := take (bound s i) s.
Definition slice_from (s : string) (i : Z) : string := drop (bound s i) s.

(** [s.replace(c, new)] for a one-character pattern. *)
Fixpoint replace (c : ascii) (new : string) (s : string) : string :=
  match s with
  | EmptyString => EmptyString
  | String a s' =>
      if Ascii.eqb a c then new +:+ replace c new s'
      else String a (replace c new s')
  end.

(** [sep.join(xs)]. *)
Fixpoint join (sep : string) (xs : list string) : string :=
  match xs with
  | [] => ""
  | [x] => x
  | x :: xs' => x +:+ sep +:+ join sep xs'
  end.

(** Truth value of an [Optional[str]]: [None] and [""] are false. *)
Definition truthy (o : option string) : bool :=
  match o with
  | Some (String _ _) => true
  | _ => false
  end.

End PyStr.

(** ** Values exchanged with the collaborators *)

(** The part of [discord.User] the module reads. *)
Record User := { id : Z; name : string }.

(** JSON values as [ujson] produces and consumes them here. *)
#[local] Set Warnings "-register-all".
Inductive json :=
| JNull
| JInt (z : Z)
| JStr (s : string)
| JObj (items : list (string * json)).

(** Exceptions that cross this module. [ServiceUnavailable] is Sanic's
    503; [SanicException] carries its message and status code. *)
Inductive exn :=
| ServiceUnavailable (message : string)
| SanicException (message : string) (status_code : Z)
| ClientResponseError (detail : string)
| DecryptError
| AttributeError
| TypeError
| KeyError (key : string)
| ValueError
| OtherError (detail : string).

Inductive result (A : Type) :=
| Ok (a : A)
| Raise (e : exn).
Arguments Ok {A} a.
Arguments Raise {A} e.

(** HTTP status a Sanic exception is answered with. *)
Definition status_of (e : exn) : option Z :=
  match e with
  | ServiceUnavailable _ => Some 503
  | SanicException _ c => Some c
  | _ => None
  end.

(** [d[k]] on a decoded JSON value. *)
Fixpoint assoc (k : string) (items : list (string * json)) : option json :=
  match items with
  | [] => None
  | (k', v) :: rest => if String.eqb k' k then Some v else assoc k rest
  end.

Definition getitem (d : json) (k : string) : result json :=
  match d with
  | JObj items =>
      match assoc k items with
      | Some v => Ok v
      | None => Raise (KeyError k)
      end
  | _ => Raise TypeError
  end.

(** *** External libraries, taken through their interfaces *)

Inductive converter := convert_b64 | convert_hex.

(** [reprypt.encrypt(text, key, converter=...)] and [reprypt.decrypt];
    [None] stands for a raised [reprypt.DecryptError]. *)
Class Reprypt := {
  reprypt_encrypt : string -> string -> converter -> string;
  reprypt_decrypt : string -> string -> converter -> option string
}.

(** The cipher's round trip. *)
Class RepryptRoundTrip `{Reprypt} : Prop :=
  decrypt_encrypt : forall text key conv,
    reprypt_decrypt (reprypt_encrypt text key conv) key conv = Some text.

(** [ujson.dumps], [ujson.loads] ([None]: the text is not JSON, a
    [ValueError]) and the builtin [int] on a string. *)
Class Ujson := {
  dumps : json -> string;
  loads : string -> option json;
  int_of_str : string -> option Z
}.

(** The cookie payload written by the middleware. *)
Definition CookieData (user_id : Z) (user_name : string) : json :=
  JObj [("id", JInt user_id); ("name", JStr user_name)].

(** [loads] inverts [dumps] on cookie payloads. *)
Class UjsonRoundTrip `{Ujson} : Prop :=
  loads_dumps : forall i n, loads (dumps (CookieData i n)) = Some (CookieData i n).

(** [int(x)] on a decoded JSON value. *)
Definition py_int `{Ujson} (x : json) : result Z :=
  match x with
  | JInt z => Ok z
  | JStr s => match int_of_str s with Some z => Ok z | None => Raise ValueError end
  | _ => Raise TypeError
  end.

(** Discord's HTTP API as seen through the [aiohttp] session, which is
    created with [raise_for_status=True]: a non-2xx answer is a
    [ClientResponseError].  [authorize] answers with the final [r.url];
    [token] stands for the POST composed with [r.json(loads=loads)];
    [users_me_get] is the GET to [users/@me], answering the body, and
    [read_user] stands for [r.json(loads=loads)] composed with
    [discord.User(...)] on that body. *)
Class DiscordAPI := {
  authorize : list (string * string) -> result string;
  token : list (string * option string) -> result json;
  users_me_get : json -> result string;
  read_user : string -> result User
}.

(** The user request as a whole: the GET, then the reading of its body. *)
Definition users_me `{DiscordAPI} (access_token : json) : result User :=
  match users_me_get access_token with
  | Ok body => read_user body
  | Raise e => Raise e
  end.

(** [sanic.response.redirect] URL-quotes its target before it sets the
    [Location] header; the quoting is Sanic's, taken through its
    interface. *)
Class Sanic := {
  quote_location : string -> string
}.

(** The bot, once the application has started. *)
Record TypedBot := { fetch_user : Z -> result User }.

(** ** Requests and responses *)

Record Request := {
  scheme : string;
  host : string;
  path : string;
  ip : string;
  cookies : gmap string string;
  args : gmap string string;
  ctx_user : option User
}.

Definition set_ctx_user (request : Request) (user : option User) : Request :=
  {| scheme := scheme request; host := host request; path := path request;
     ip := ip request; cookies := cookies request; args := args request;
     ctx_user := user |}.

Record HTTPResponse := {
  status : Z;
  location : option string;
  body : string;
  resp_cookies : gmap string string
}.

(** [sanic.response.redirect(to)]. *)
Definition redirect `{Sanic} (to : string) : HTTPResponse :=
  {| status := 302; location := Some (quote_location to); body := "";
     resp_cookies := ∅ |}.

(** [response.cookies[k] = v]. *)
Definition set_cookie (k v : string) (response : HTTPResponse) : HTTPResponse :=
  {| status := status response; location := location response;
     body := body response; resp_cookies := <[k := v]> (resp_cookies response) |}.

(** A route: it reads the request and answers or raises. *)
Definition Route := Request -> result HTTPResponse.

(** ** The object and the monad its methods run in *)

Record DiscordOAuth := {
  client_id : string;
  client_secret : string;
  secret_key : string;
  redirects : gmap string (option string);
  _session : bool;
  bot : option TypedBot
}.

(** [DiscordOAuth.__init__]: no cached URL, no HTTP session, no bot yet. *)
Definition init (cid csecret key : string) : DiscordOAuth :=
  {| client_id := cid; client_secret := csecret; secret_key := key;
     redirects := ∅; _session := false; bot := None |}.

Definition set_redirects (r : gmap string (option string)) (self : DiscordOAuth) : DiscordOAuth :=
  {| client_id := client_id self; client_secret := client_secret self;
     secret_key := secret_key self; redirects := r;
     _session := _session self; bot := bot self |}.

Definition open_session (self : DiscordOAuth) : DiscordOAuth :=
  {| client_id := client_id self; client_secret := client_secret self;
     secret_key := secret_key self; redirects := redirects self;
     _session := true; bot := bot self |}.

(** The application task that runs at start-up: [self.bot = app.ctx.bot]. *)
Definition set_bot (b : TypedBot) (self : DiscordOAuth) : DiscordOAuth :=
  {| client_id := client_id self; client_secret := client_secret self;
     secret_key := secret_key self; redirects := redirects self;
     _session := _session self; bot := Some b |}.

(** Calls that leave the module. *)
Inductive event :=
| EvAuthorize (params : list (string * string))
| EvToken (data : list (string * option string))
| EvUsersMe (access_token : json)
| EvFetchUser (user_id : Z)
| EvHandler (user : option User).

(** Calls to Discord's API in a trace. *)
Definition is_provider_call (e : event) : bool :=
  match e with
  | EvAuthorize _ | EvToken _ | EvUsersMe _ => true
  | EvFetchUser _ | EvHandler _ => false
  end.

Definition provider_calls (t : list event) : list event :=
  List.filter is_provider_call t.

Record Run (A : Type) := {
  outcome : result A;
  self' : DiscordOAuth;
  trace : list event
}.
Arguments outcome {A} r.
Arguments self' {A} r.
Arguments trace {A} r.

Definition M (A : Type) : Type := DiscordOAuth -> Run A.

Definition ret {A} (a : A) : M A :=
  fun self => {| outcome := Ok a; self' := self; trace := [] |}.

Definition raise {A} (e : exn) : M A :=
  fun self => {| outcome := Raise e; self' := self; trace := [] |}.

Definition bind {A B} (m : M A) (k : A -> M B) : M B :=
  fun self =>
    let r := m self in
    match outcome r with
    | Ok a =>
        let r2 := k a (self' r) in
        {| outcome := outcome r2; self' := self' r2; trace := trace r ++ trace r2 |}
    | Raise e => {| outcome := Raise e; self' := self' r; trace := trace r |}
    end.

(** [try: m except ...: h]: [h] chooses the exceptions it handles. *)
Definition try_except {A} (m : M A) (h : exn -> option (M A)) : M A :=
  fun self =>
    let r := m self in
    match outcome r with
    | Ok _ => r
    | Raise e =>
        match h e with
        | Some k =>
            let r2 := k (self' r) in
            {| outcome := outcome r2; self' := self' r2; trace := trace r ++ trace r2 |}
        | None => r
        end
    end.

Definition get_self : M DiscordOAuth :=
  fun self => {| outcome := Ok self; self' := self; trace := [] |}.

Definition modify (f : DiscordOAuth -> DiscordOAuth) : M unit :=
  fun self => {| outcome := Ok tt; self' := f self; trace := [] |}.

Definition emit (e : event) : M unit :=
  fun self => {| outcome := Ok tt; self' := self; trace := [e] |}.

Definition lift {A} (r : result A) : M A :=
  fun self => {| outcome := r; self' := self; trace := [] |}.

Declare Scope oauth_scope.
Delimit Scope oauth_scope with oauth.
Notation "'do' x <- m ; k" := (bind m (fun x => k))
  (at level 10, x name, m at level 100, k at level 200) : oauth_scope.
Notation "m ;; k" := (bind m (fun _ => k))
  (at level 100, k at level 200, right associativity) : oauth_scope.
Local Open Scope oauth_scope.

(** ** [DiscordOAuth] *)

Section DiscordOAuth.
Context `{Reprypt} `{Ujson} `{DiscordAPI} `{Sanic}.

Definition BASE : string := "https://discord.com/api/v8/".

(** The [session] property: the HTTP session is created on first use. *)
Definition with_session (self : DiscordOAuth) : DiscordOAuth :=
  if _session self then self else open_session self.

Definition session : M unit := modify with_session.

(** [self.redirects.get(url)]: a key bound to [None] reads as [None]. *)
Definition get_redirect_oauth (self : DiscordOAuth) (url : string) : option string :=
  mjoin (redirects self !! url).

(** [self.redirects[url] = None]. *)
Definition reset_oauth (url : string) : M unit :=
  modify (fun self => set_redirects (<[url := None]> (redirects self)) self).

(** [for key in list(self.redirects.keys()): self.reset_oauth(key)]. *)
Definition reset_all_oauth : M unit :=
  do self <- get_self;
  foldr (fun key k => reset_oauth key ;; k) (ret tt)
        (map fst (map_to_list (redirects self))).

Definition authorize_params (self : DiscordOAuth) (redirect_url : string)
    (scope : list string) : list (string * string) :=
  [("response_type", "code");
   ("scope", PyStr.join "%20" scope);
   ("client_id", client_id self);
   ("redirect_uri", redirect_url)].

(** The rewriting of [str(r.url)]: the text before [url.find("?")] as it
    is, the rest with every [/] replaced. *)
Definition quote_query (url : string) : string :=
  let slash := PyStr.find "?" url in
  PyStr.slice_to url slash +:+ PyStr.replace "/" "%2F" (PyStr.slice_from url slash).

Definition state_suffix (state : option string) : string :=
  if PyStr.truthy state then "&state=" +:+ default "" state else "".

Definition get_url (redirect_url : string) (scope : list string)
    (state : option string) : M string :=
  do self <- get_self;
  do url <-
    match get_redirect_oauth self redirect_url with
    | None =>
        let params := authorize_params self redirect_url scope in
        session ;;
        emit (EvAuthorize params) ;;
        do url <- lift (authorize params);
        ret (quote_query url)
    | Some url => ret url
    end;
  ret (url +:+ state_suffix state).

Definition token_data (self : DiscordOAuth) (code : option string)
    (callback_url : string) : list (string * option string) :=
  [("client_id", Some (client_id self));
   ("client_secret", Some (client_secret self));
   ("grant_type", Some "authorization_code");
   ("code", code);
   ("redirect_uri", Some callback_url)].

Definition get_token (code : option string) (callback_url : string) : M json :=
  do self <- get_self;
  let data := token_data self code callback_url in
  session ;;
  emit (EvToken data) ;;
  lift (token data).

(** [self.bot._connection] is evaluated once the GET has answered and
    before the body is read. *)
Definition get_userdata (access_token : json) : M User :=
  session ;;
  emit (EvUsersMe access_token) ;;
  do body <- lift (users_me_get access_token);
  do self <- get_self;
  match bot self with
  | None => raise AttributeError
  | Some _ => lift (read_user body)
  end.

(** [reprypt.decrypt(...)] in a position where [DecryptError] may be
    caught. *)
Definition decrypt (text key : string) (conv : converter) : M string :=
  match reprypt_decrypt text key conv with
  | Some plain => ret plain
  | None => raise DecryptError
  end.

Definition get_user_cookie (cookie : string) : M (option User) :=
  try_except
    (do self <- get_self;
     match bot self with
     | None => raise AttributeError
     | Some b =>
         do plain <- decrypt cookie (secret_key self) convert_b64;
         do data <- match loads plain with
                    | Some d => ret d
                    | None => raise ValueError
                    end;
         do v <- lift (getitem data "id");
         do n <- lift (py_int v);
         emit (EvFetchUser n) ;;
         do user <- lift (fetch_user b n);
         ret (Some user)
     end)
    (fun e => match e with DecryptError => Some (ret None) | _ => None end).

(** An exception leaving the body of [get_user_cookie]: a
    [DecryptError] is answered with [None], any other is passed on. *)
Definition except_decrypt_error (e : exn) (self : DiscordOAuth) (t : list event)
  : Run (option User) :=
  match e with
  | DecryptError => {| outcome := Ok None; self' := self; trace := t |}
  | _ => {| outcome := Raise e; self' := self; trace := t |}
  end.

Definition encrypt (self : DiscordOAuth) (data : json) : string :=
  reprypt_encrypt (dumps data) (secret_key self) convert_b64.

Definition make_base_url (request : Request) : string :=
  scheme request +:+ "://" +:+ host request.

Definition make_url (request : Request) (path : string) : string :=
  make_base_url request +:+ path.

Definition state_generator (self : DiscordOAuth) (request : Request) : string :=
  reprypt_encrypt (host request +:+ ip request) (secret_key self) convert_hex.

Definition state_checker (self : DiscordOAuth) (request : Request) (state : string) : bool :=
  match reprypt_decrypt state (secret_key self) convert_hex with
  | Some plain => String.eqb (host request +:+ ip request) plain
  | None => false
  end.

(** *** The route guard *)

Definition msg_not_ready : string :=
  "まだ起動準備中なので処理を続行できませんでした。".

Definition msg_bad_state : string :=
  "あなたのクエリパラメータの`state`が間違えているので正常に処理ができませんでした。OAuth認証をやり直してください。".

Definition msg_fetch_failed : string :=
  "ユーザーデータの取得に失敗しました。ログイン情報が古かったから発生したエラーの可能性があります。"
  +:+ "お手数ですがもう一度ログインしてください。ErrorCode:".

(** The exception that leaves the [try] of the callback phase: a
    [ClientResponseError] becomes a 400 with its text appended, any
    other exception is passed on. *)
Definition except_client_response_error (e : exn) : exn :=
  match e with
  | ClientResponseError detail => SanicException (msg_fetch_failed +:+ detail) 400
  | _ => e
  end.

Inductive Mode := normal | write_cookie.

(** [response = await func(request, ...)] and the cookie written after
    it when [mode == "write-cookie"]. *)
Definition call_route (func : Route) (mode : Mode) (request : Request) : M HTTPResponse :=
  emit (EvHandler (ctx_user request)) ;;
  do response <- lift (func request);
  match mode with
  | write_cookie =>
      do self <- get_self;
      match ctx_user request with
      | Some user =>
          ret (set_cookie "session" (encrypt self (CookieData (id user) (name user))) response)
      | None => raise AttributeError
      end
  | normal => ret response
  end.

(** The user taken from the session cookie in the cookie-present or
    force branch: [await self.get_user_cookie(data) if data else None]. *)
Definition cookie_user (request : Request) : M (option User) :=
  let data := cookies request !! "session" in
  if PyStr.truthy data then get_user_cookie (default "" data) else ret None.

(** The check of the [state] query parameter in the callback phase; it
    is entered when [state_generator] is set, and calls [state_checker]
    whatever it is. *)
Definition check_state (state_generator : option (Request -> string))
    (state_checker : option (Request -> string -> bool)) (request : Request) : M unit :=
  match state_generator with
  | Some _ =>
      match state_checker with
      | Some checker =>
          if negb (checker request (default "" (args request !! "state")))
          then raise (SanicException msg_bad_state 403)
          else ret tt
      | None => raise TypeError
      end
  | None => ret tt
  end.

(** The state of a callback request is accepted: no generator is set,
    or the checker that is set answers [true] on the [state] parameter,
    read as the empty text when absent. *)
Definition state_accepted (sg : option (Request -> string))
    (sc : option (Request -> string -> bool)) (request : Request) : Prop :=
  match sg, sc with
  | None, _ => True
  | Some _, Some checker => checker request (default "" (args request !! "state")) = true
  | Some _, None => False
  end.

Definition _wrap_route (func : Route) (force : bool) (scope : list string)
    (state_generator : option (Request -> string))
    (state_checker : option (Request -> string -> bool))
    (request : Request) : M HTTPResponse :=
  do self <- get_self;
  match bot self with
  | None => raise (ServiceUnavailable msg_not_ready)
  | Some _ =>
      let data := cookies request !! "session" in
      if PyStr.truthy data || force then
        do user <- cookie_user request;
        call_route func normal (set_ctx_user request user)
      else if bool_decide (args request ≠ ∅) then
        check_state state_generator state_checker request ;;
        do user <-
          try_except
            (do tok <- get_token (args request !! "code") (make_url request (path request));
             do access_token <- lift (getitem tok "access_token");
             get_userdata access_token)
            (fun e => match e with
                      | ClientResponseError detail =>
                          Some (raise (SanicException (msg_fetch_failed +:+ detail) 400))
                      | _ => None
                      end);
        call_route func write_cookie (set_ctx_user request (Some user))
      else
        let redirect_url := make_url request (path request) in
        let state := match state_generator with
                     | Some generator => Some (generator request)
                     | None => None
                     end in
        do url <- get_url redirect_url scope state;
        ret (redirect url)
  end.

(** The [state_generator] and [state_checker] arguments of
    [require_login]: the string ["default"], [None], or a callable. *)
Inductive StateArg (F : Type) :=
| default_arg
| none_arg
| callable_arg (f : F).
Arguments default_arg {F}.
Arguments none_arg {F}.
Arguments callable_arg {F} f.

(** [self.state_generator if state_generator == "default" else None]. *)
Definition resolve_arg {F} (builtin : F) (arg : StateArg F) : option F :=
  match arg with
  | default_arg => Some builtin
  | _ => None
  end.

Definition require_login (self : DiscordOAuth) (force : bool) (scope : list string)
    (state_generator_arg : StateArg (Request -> string))
    (state_checker_arg : StateArg (Request -> string -> bool))
    (func : Route) : Request -> M HTTPResponse :=
  let state_generator := resolve_arg (state_generator self) state_generator_arg in
  let state_checker := resolve_arg (state_checker self) state_checker_arg in
  _wrap_route func force scope state_generator state_checker.

End DiscordOAuth.

Arguments default_arg {F}.
Arguments none_arg {F}.
Arguments callable_arg {F} f.

(** ** Sequences of calls on one object *)

(** Two objects that agree on everything but the lazily created HTTP
    session. *)
Definition same_but_session (self after : DiscordOAuth) : Prop :=
  client_id after = client_id self
  /\ client_secret after = client_secret self
  /\ secret_key after = secret_key self
  /\ redirects after = redirects self
  /\ bot after = bot self.

(** A computation that changes nothing in the object, or nothing but
    creating the HTTP session. *)
Definition at_most_opens {A} (m : M A) : Prop :=
  forall self, self' (m self) = self \/ self' (m self) = with_session self.

(** What one call keeps of the object. *)
Definition kept (self s : DiscordOAuth) : Prop :=
  client_id s = client_id self /\ client_secret s = client_secret self
  /\ secret_key s = secret_key self
  /\ (_session self = true -> _session s = true)
  /\ (is_Some (bot self) -> is_Some (bot s))
  /\ dom (redirects self) ⊆ dom (redirects s)
  /\ ((forall url, get_redirect_oauth self url = None) ->
      forall url, get_redirect_oauth s url = None).

(** The ways the class is used: a read of the [session] property, its
    public methods, a request to a guarded route, and the start-up task
    that sets the bot. *)
Inductive call :=
| call_session
| call_get_url (redirect_url : string) (scope : list string) (state : option string)
| call_get_token (code : option string) (callback_url : string)
| call_get_userdata (access_token : json)
| call_get_user_cookie (cookie : string)
| call_reset_oauth (url : string)
| call_reset_all_oauth
| call_request (func : Route) (force : bool) (scope : list string)
    (state_generator : option (Request -> string))
    (state_checker : option (Request -> string -> bool)) (request : Request)
| call_startup (b : TypedBot).

Section Calls.
Context `{Reprypt} `{Ujson} `{DiscordAPI} `{Sanic}.

(** The object after one call. *)
Definition after (c : call) (self : DiscordOAuth) : DiscordOAuth :=
  match c with
  | call_session => self' (session self)
  | call_get_url redirect_url scope state => self' (get_url redirect_url scope state self)
  | call_get_token code callback_url => self' (get_token code callback_url self)
  | call_get_userdata access_token => self' (get_userdata access_token self)
  | call_get_user_cookie cookie => self' (get_user_cookie cookie self)
  | call_reset_oauth url => self' (reset_oauth url self)
  | call_reset_all_oauth => self' (reset_all_oauth self)
  | call_request func force scope sg sc request =>
      self' (_wrap_route func force scope sg sc request self)
  | call_startup b => set_bot b self
  end.

(** The object after a sequence of calls, first call first. *)
Definition after_all (calls : list call) (self : DiscordOAuth) : DiscordOAuth :=
  foldl (fun s c => after c s) self calls.

End Calls.

(** ** Reference collaborators

    Small executable stand-ins for the external libraries and services,
    used to run the embedding on concrete requests. *)

Module Ref.

(** [strip_prefix p s]: [s] without its prefix [p], when it has it. *)
Fixpoint strip_prefix (p s : string) : option string :=
  match p, s with
  | EmptyString, _ => Some s
  | String a p', String b s' => if Ascii.eqb a b then strip_prefix p' s' else None
  | String _ _, EmptyString => None
  end.

Definition marker (conv : converter) : ascii :=
  match conv with convert_b64 => "b"%char | convert_hex => "x"%char end.

(** A keyed envelope: the converter's marker, the key, the text. *)
Definition cipher : Reprypt := {|
  reprypt_encrypt text key conv := String (marker conv) (key +:+ text);
  reprypt_decrypt text key conv :=
    match text with
    | String m rest => if Ascii.eqb m (marker conv) then strip_prefix key rest else None
    | EmptyString => None
    end
|}.

(** Integers in binary, least significant digit first, closed by [;]. *)
Fixpoint dump_pos (p : positive) : string :=
  match p with
  | xI p' => String "1" (dump_pos p')
  | xO p' => String "0" (dump_pos p')
  | xH => ";"
  end.

Definition dump_int (z : Z) : string :=
  match z with
  | Z0 => "z"
  | Zpos p => String "+" (dump_pos p)
  | Zneg p => String "-" (dump_pos p)
  end.

Fixpoint load_pos (s : string) : option (positive * string) :=
  match s with
  | String "1" s' => match load_pos s' with Some (p, r) => Some (xI p, r) | None => None end
  | String "0" s' => match load_pos s' with Some (p, r) => Some (xO p, r) | None => None end
  | String ";" s' => Some (xH, s')
  | _ => None
  end.

Definition load_int (s : string) : option (Z * string) :=
  match s with
  | String "z" s' => Some (0, s')
  | String "+" s' => match load_pos s' with Some (p, r) => Some (Zpos p, r) | None => None end
  | String "-" s' => match load_pos s' with Some (p, r) => Some (Zneg p, r) | None => None end
  | _ => None
  end.

(** A compact codec for the values the module serialises: an object
    with an integer [id] and a string [name] is written as the integer
    followed by the name; other values are written as the empty text,
    which does not load. *)
Definition codec : Ujson := {|
  dumps v :=
    match v with
    | JObj [(k1, JInt i); (k2, JStr n)] =>
        if String.eqb k1 "id" && String.eqb k2 "name" then dump_int i +:+ n else ""
    | _ => ""
    end;
  loads s :=
    match load_int s with
    | Some (i, n) => Some (CookieData i n)
    | None => None
    end;
  int_of_str s :=
    match load_int s with
    | Some (i, EmptyString) => Some i
    | _ => None
    end
|}.

Definition alice : User := {| id := 42; name := "alice" |}.

Definition lookup_param (k : string) (params : list (string * string)) : string :=
  default "" (snd <$> List.find (fun kv => String.eqb (fst kv) k) params).

(** Discord: the authorize endpoint lands on the consent page with the
    redirect URI in its query; the code [ABC] buys the token [tok], and
    [tok] is alice's. *)
Definition discord : DiscordAPI := {|
  authorize params :=
    Ok ("https://discord.com/oauth2/authorize?client_id=" +:+ lookup_param "client_id" params
        +:+ "&redirect_uri=" +:+ lookup_param "redirect_uri" params);
  token data :=
    match mjoin (snd <$> List.find (fun kv => String.eqb (fst kv) "code") data) with
    | Some "ABC" => Ok (JObj [("access_token", JStr "tok"); ("token_type", JStr "Bearer")])
    | _ => Raise (ClientResponseError "400, message='Bad Request'")
    end;
  users_me_get access_token :=
    match access_token with
    | JStr "tok" => Ok "alice"
    | _ => Raise (ClientResponseError "401, message='Unauthorized'")
    end;
  read_user body :=
    if String.eqb body "alice" then Ok alice else Raise (KeyError "username")
|}.

(** Sanic's quoting, [quote_plus(to, safe=...)] on the bytes of the
    target: letters, digits, the characters [_.-~] and those of the safe
    list are kept, a space becomes [+], any other byte becomes [%XX]. *)
Definition hex_digit (n : nat) : ascii :=
  default "0"%char (String.get n "0123456789ABCDEF").

Definition is_safe (c : ascii) : bool :=
  let n := nat_of_ascii c in
  ((48 <=? n) && (n <=? 57) || (65 <=? n) && (n <=? 90) || (97 <=? n) && (n <=? 122))%nat
  || existsb (Ascii.eqb c) (list_ascii_of_string "_.-~:/%#?&=@[]!$&'()*+,;").

Fixpoint quote_plus (s : string) : string :=
  match s with
  | EmptyString => EmptyString
  | String c s' =>
      (if is_safe c then String c ""
       else if Ascii.eqb c " " then "+"
       else let n := nat_of_ascii c in
            String "%" (String (hex_digit (n / 16)) (String (hex_digit (n mod 16)) "")))
      +:+ quote_plus s'
  end.

Definition sanic : Sanic := {| quote_location := quote_plus |}.

Definition the_bot : TypedBot :=
  {| fetch_user n := if n =? 42 then Ok alice else Raise (OtherError "NotFound") |}.

(** The object before and after the application has started. *)
Definition starting : DiscordOAuth := init "1234" "s3cret" "k".
Definition started : DiscordOAuth := set_bot the_bot starting.

(** A route that greets the user it finds in the request context. *)
Definition hello : Route :=
  fun request =>
    Ok {| status := 200; location := None;
          body := match ctx_user request with
                  | Some user => "hello " +:+ name user
                  | None => "hello stranger"
                  end;
          resp_cookies := ∅ |}.

Definition visit (cookies args : gmap string string) : Request :=
  {| scheme := "https"; host := "rt.example"; path := "/dashboard"; ip := "203.0.113.7";
     cookies := cookies; args := args; ctx_user := None |}.

(** A callback request without [state], one whose state was made for
    another address, and a visit with a forged session cookie. *)
Definition callback_no_state : Request := visit ∅ {["code" := "ABC"]}.
Definition callback_bad_state : Request :=
  visit ∅ (<["state" := "xkrt.example198.51.100.9"]> {["code" := "ABC"]}).
Definition forged_cookie : Request := visit {["session" := "garbage"]} ∅.

(** A callback with the state made for this visitor, one with a code
    Discord refuses, and a later visit with the cookie issued to alice. *)
Definition callback_good_state : Request :=
  visit ∅ (<["state" := "xkrt.example203.0.113.7"]> {["code" := "ABC"]}).
Definition callback_bad_code : Request := visit ∅ {["code" := "XYZ"]}.

(** The same first visit from another address. *)
Definition elsewhere : Request :=
  {| scheme := "https"; host := "rt.example"; path := "/dashboard"; ip := "198.51.100.9";
     cookies := ∅; args := ∅; ctx_user := None |}.

(** Discord on a bad day: the authorize endpoint answers 503, the token
    endpoint answers the code [ABC] with an object that has no
    [access_token] and cannot be reached for any other code. *)
Definition faulty : DiscordAPI := {|
  authorize _ := Raise (ClientResponseError "503, message='Service Unavailable'");
  token data :=
    match mjoin (snd <$> List.find (fun kv => String.eqb (fst kv) "code") data) with
    | Some "ABC" => Ok (JObj [("token_type", JStr "Bearer")])
    | _ => Raise (OtherError "Cannot connect to host discord.com:443")
    end;
  users_me_get _ := Raise (ClientResponseError "401, message='Unauthorized'");
  read_user _ := Raise ValueError
|}.

(** A codec that reads every text as an object with a [name] only. *)
Definition lenient : Ujson := {|
  dumps _ := "";
  loads s := Some (JObj [("name", JStr s)]);
  int_of_str _ := None
|}.

(** An object whose [redirects] was given a URL from outside. *)
Definition dashboard_url : string := "https://rt.example/dashboard".
Definition cached_url : string :=
  "https://discord.com/oauth2/authorize?client_id=1234&redirect_uri=https:%2F%2Frt.example%2Fdashboard".
Definition cached : DiscordOAuth :=
  set_redirects {[dashboard_url := Some cached_url]} started.

(** A visit with a cookie that decrypts to a text that is not a payload. *)
Definition junk_cookie : Request := visit {["session" := "bkhello"]} ∅.

(** A visit with the cookie of a user the bot does not find. *)
Definition stranger_cookie : Request := visit {["session" := "bk+;bob"]} ∅.

(** A route that sets two cookies of its own, one of them named
    [session]. *)
Definition themed : Route :=
  fun request =>
    Ok {| status := 201; location := None; body := "created";
          resp_cookies := {["theme" := "dark"; "session" := "stale"]} |}.

(** A callback that carries an error instead of a code. *)
Definition callback_denied : Request := visit ∅ {["error" := "access_denied"]}.

(** The started object once its HTTP session exists. *)
Definition opened : DiscordOAuth := open_session started.

End Ref.

(** ** Properties *)

(** *** Running the monad one step at a time *)

Lemma run_eta {A : Type} (r : Run A) :
  {| outcome := outcome r; self' := self' r; trace := trace r |} = r.
Proof. destruct r; reflexivity. Qed.

Section Steps.
Context {A B : Type}.

Lemma bind_ret (a : A) (k : A -> M B) self : bind (ret a) k self = k a self.
Proof. unfold bind, ret. cbn [outcome self' trace app]. apply run_eta. Qed.

Lemma bind_raise (e : exn) (k : A -> M B) self : bind (raise e) k self = raise e self.
Proof. reflexivity. Qed.

Lemma bind_lift_ok (a : A) (k : A -> M B) self : bind (lift (Ok a)) k self = k a self.
Proof. unfold bind, lift. cbn [outcome self' trace app]. apply run_eta. Qed.

Lemma bind_lift_raise (e : exn) (k : A -> M B) self :
  bind (lift (Raise e)) k self = raise e self.
Proof. reflexivity. Qed.

Lemma bind_get_self (k : DiscordOAuth -> M A) self : bind get_self k self = k self self.
Proof. unfold bind, get_self. cbn [outcome self' trace app]. apply run_eta. Qed.

Lemma bind_modify (f : DiscordOAuth -> DiscordOAuth) (k : unit -> M A) self :
  bind (modify f) k self = k tt (f self).
Proof. unfold bind, modify. cbn [outcome self' trace app]. apply run_eta. Qed.

Lemma bind_emit (e : event) (k : unit -> M A) self :
  bind (emit e) k self
  = {| outcome := outcome (k tt self); self' := self' (k tt self);
       trace := e :: trace (k tt self) |}.
Proof. reflexivity. Qed.

(** A bind whose first part has been run. *)
Lemma bind_run (m : M A) (k : A -> M B) self o s t :
  m self = {| outcome := o; self' := s; trace := t |} ->
  bind m k self
  = match o with
    | Ok a => {| outcome := outcome (k a s); self' := self' (k a s);
                 trace := t ++ trace (k a s) |}
    | Raise e => {| outcome := Raise e; self' := s; trace := t |}
    end.
Proof. intros Hm. unfold bind. rewrite Hm. cbn [outcome self' trace]. now destruct o. Qed.

Lemma try_except_run (m : M A) (h : exn -> option (M A)) self o s t :
  m self = {| outcome := o; self' := s; trace := t |} ->
  try_except m h self
  = match o with
    | Ok a => {| outcome := Ok a; self' := s; trace := t |}
    | Raise e =>
        match h e with
        | Some k => {| outcome := outcome (k s); self' := self' (k s);
                       trace := t ++ trace (k s) |}
        | None => {| outcome := Raise e; self' := s; trace := t |}
        end
    end.
Proof.
  intros Hm. unfold try_except. rewrite Hm. cbn [outcome self' trace].
  destruct o as [a | e]; [reflexivity |]. now destruct (h e).
Qed.

End Steps.

(** *** Slicing at the first question mark *)

Section Slicing.

Lemma length_app_str (a b : string) :
  String.length (a +:+ b) = (String.length a + String.length b)%nat.
Proof. induction a as [|x a IH]; simpl; [reflexivity | now rewrite IH]. Qed.

Lemma take_app (a b : string) : PyStr.take (String.length a) (a +:+ b) = a.
Proof. induction a as [|x a IH]; simpl; [now destruct b | now rewrite IH]. Qed.

Lemma drop_app (a b : string) : PyStr.drop (String.length a) (a +:+ b) = b.
Proof. induction a as [|x a IH]; simpl; [now destruct b | exact IH]. Qed.

Lemma find_lower (c : ascii) (s : string) : -1 <= PyStr.find c s.
Proof.
  induction s as [|x s IH]; simpl; [lia |].
  destruct (Ascii.eqb x c); [lia |].
  destruct (PyStr.find c s <? 0) eqn:E; [lia |].
  apply Z.ltb_ge in E. lia.
Qed.

Lemma find_first (c : ascii) (a q : string) :
  PyStr.find c a = -1 -> PyStr.find c (a +:+ String c q) = PyStr.len a.
Proof.
  unfold PyStr.len. induction a as [|x a IH]; simpl.
  - intros _. now rewrite Ascii.eqb_refl.
  - destruct (Ascii.eqb x c); [discriminate |].
    pose proof (find_lower c a) as Hlow.
    destruct (PyStr.find c a <? 0) eqn:E.
    + intros _. apply Z.ltb_lt in E.
      rewrite IH by lia.
      destruct (Z.of_nat (String.length a) <? 0) eqn:E2; [apply Z.ltb_lt in E2 |]; lia.
    + apply Z.ltb_ge in E. lia.
Qed.

Lemma bound_at_len (a b : string) : PyStr.bound (a +:+ b) (PyStr.len a) = String.length a.
Proof.
  unfold PyStr.bound, PyStr.len. rewrite length_app_str.
  destruct (Z.of_nat (String.length a) <? 0) eqn:E; [apply Z.ltb_lt in E |]; lia.
Qed.

Lemma replace_cons_other (c x : ascii) (new s : string) :
  Ascii.eqb x c = false ->
  PyStr.replace c new (String x s) = String x (PyStr.replace c new s).
Proof. intros E. simpl. now rewrite E. Qed.

Lemma str_app_assoc (a b c : string) : (a +:+ b) +:+ c = a +:+ (b +:+ c).
Proof.
  induction a as [|x a IH]; [reflexivity |].
  change (String x ((a +:+ b) +:+ c) = String x (a +:+ (b +:+ c))). now f_equal.
Qed.

Lemma find_none_cons (c x : ascii) (s : string) :
  PyStr.find c (String x s) = -1 <-> Ascii.eqb x c = false /\ PyStr.find c s = -1.
Proof.
  simpl. pose proof (find_lower c s) as Hlow.
  destruct (Ascii.eqb x c); [split; [discriminate | intros [? _]; discriminate] |].
  destruct (PyStr.find c s <? 0) eqn:E.
  - apply Z.ltb_lt in E. split; [intros _; split; [reflexivity | lia] | reflexivity].
  - apply Z.ltb_ge in E. split; [lia | intros [_ ?]; lia].
Qed.

Lemma find_none_app (c : ascii) (a b : string) :
  PyStr.find c (a +:+ b) = -1 <-> PyStr.find c a = -1 /\ PyStr.find c b = -1.
Proof.
  induction a as [|x a IH].
  - simpl. tauto.
  - change (String x a +:+ b) with (String x (a +:+ b)).
    rewrite !find_none_cons, IH. tauto.
Qed.

Lemma find_split (c : ascii) (u : string) :
  PyStr.find c u = -1
  \/ exists base q, u = base +:+ String c q /\ PyStr.find c base = -1.
Proof.
  induction u as [|x u IH]; [now left |].
  destruct (Ascii.eqb x c) eqn:E.
  - right. apply Ascii.eqb_eq in E. subst x. now exists "", u.
  - destruct IH as [Hnone | (base & q & -> & Hbase)].
    + left. now apply find_none_cons.
    + right. exists (String x base), q. split; [reflexivity |]. now apply find_none_cons.
Qed.

Lemma snoc_split (u : string) : u = "" \/ exists a c, u = a +:+ String c "".
Proof.
  induction u as [|x u IH]; [now left |]. right.
  destruct IH as [-> | (a & c & ->)]; [now exists "", x | now exists (String x a), c].
Qed.

Lemma replace_none (c : ascii) (new s : string) :
  PyStr.find c s = -1 -> PyStr.replace c new s = s.
Proof.
  induction s as [|x s IH]; [reflexivity |].
  intros [E Hrest]%find_none_cons. simpl. now rewrite E, IH.
Qed.

Lemma replace_app (c : ascii) (new a b : string) :
  PyStr.replace c new (a +:+ b) = PyStr.replace c new a +:+ PyStr.replace c new b.
Proof.
  induction a as [|x a IH]; [reflexivity |].
  change (String x a +:+ b) with (String x (a +:+ b)). cbn [PyStr.replace].
  rewrite IH. destruct (Ascii.eqb x c); [now rewrite str_app_assoc | reflexivity].
Qed.

Lemma find_replace_slash (s : string) : PyStr.find "/" (PyStr.replace "/" "%2F" s) = -1.
Proof.
  induction s as [|x s IH]; [reflexivity |].
  cbn [PyStr.replace]. destruct (Ascii.eqb x "/") eqn:E.
  - change ("%2F" +:+ PyStr.replace "/" "%2F" s)
      with (String "%" (String "2" (String "F" (PyStr.replace "/" "%2F" s)))).
    repeat (apply find_none_cons; split; [reflexivity |]). exact IH.
  - apply find_none_cons. now split.
Qed.

Lemma bound_minus_one (a : string) (c : ascii) :
  PyStr.bound (a +:+ String c "") (-1) = String.length a.
Proof.
  unfold PyStr.bound, PyStr.len. rewrite length_app_str.
  change (-1 <? 0) with true. cbv iota. cbn [String.length]. lia.
Qed.

End Slicing.

Section Facts.
Context `{Reprypt} `{Ujson} `{DiscordAPI} `{Sanic}.

(** The rewriting of a URL that has a question mark. *)
Lemma quote_query_split (base query : string) :
  PyStr.find "?" base = -1 ->
  quote_query (base +:+ String "?" query)
  = base +:+ String "?" (PyStr.replace "/" "%2F" query).
Proof.
  intros Hbase. unfold quote_query, PyStr.slice_to, PyStr.slice_from.
  rewrite (find_first _ _ _ Hbase), bound_at_len, take_app, drop_app.
  now rewrite (replace_cons_other "/" "?" "%2F" query eq_refl).
Qed.

(** *** What each method does, run from a given object *)

Lemma get_url_miss_run (redirect_url : string) (scope : list string)
    (state : option string) (self : DiscordOAuth) :
  get_redirect_oauth self redirect_url = None ->
  get_url redirect_url scope state self
  = {| outcome := match authorize (authorize_params self redirect_url scope) with
                  | Ok url => Ok (quote_query url +:+ state_suffix state)
                  | Raise e => Raise e
                  end;
       self' := with_session self;
       trace := [EvAuthorize (authorize_params self redirect_url scope)] |}.
Proof.
  intros Hmiss. unfold get_url. rewrite bind_get_self, Hmiss.
  set (params := authorize_params self redirect_url scope).
  assert (Hfetch :
    (session ;; emit (EvAuthorize params) ;;
     do url <- lift (authorize params); ret (quote_query url)) self
    = {| outcome := match authorize params with
                    | Ok url => Ok (quote_query url)
                    | Raise e => Raise e
                    end;
         self' := with_session self; trace := [EvAuthorize params] |}).
  { unfold session. rewrite bind_modify, bind_emit.
    destruct (authorize params) as [url | e];
      [rewrite bind_lift_ok | rewrite bind_lift_raise]; reflexivity. }
  rewrite (bind_run _ _ _ _ _ _ Hfetch).
  destruct (authorize params); reflexivity.
Qed.

Lemma get_token_run (code : option string) (callback_url : string) (self : DiscordOAuth) :
  get_token code callback_url self
  = {| outcome := token (token_data self code callback_url);
       self' := with_session self;
       trace := [EvToken (token_data self code callback_url)] |}.
Proof.
  unfold get_token, session. rewrite bind_get_self, bind_modify, bind_emit.
  reflexivity.
Qed.

Lemma get_userdata_run (access_token : json) (self : DiscordOAuth) (b : TypedBot) :
  bot self = Some b ->
  get_userdata access_token self
  = {| outcome := users_me access_token; self' := with_session self;
       trace := [EvUsersMe access_token] |}.
Proof.
  intros Hbot. unfold get_userdata, session, users_me. rewrite bind_modify, bind_emit.
  assert (Hbot' : bot (with_session self) = Some b).
  { unfold with_session. now destruct (_session self). }
  destruct (users_me_get access_token) as [body | e];
    [rewrite bind_lift_ok, bind_get_self, Hbot' | rewrite bind_lift_raise]; reflexivity.
Qed.

Lemma call_route_normal_run (func : Route) (request : Request) (self : DiscordOAuth) :
  call_route func normal request self
  = {| outcome := func request; self' := self; trace := [EvHandler (ctx_user request)] |}.
Proof.
  unfold call_route. rewrite bind_emit.
  destruct (func request) as [response | e];
    [rewrite bind_lift_ok | rewrite bind_lift_raise]; reflexivity.
Qed.

Lemma call_route_write_run (func : Route) (request : Request) (user : User)
    (self : DiscordOAuth) :
  ctx_user request = Some user ->
  call_route func write_cookie request self
  = {| outcome := match func request with
                  | Ok response =>
                      Ok (set_cookie "session"
                            (encrypt self (CookieData (id user) (name user))) response)
                  | Raise e => Raise e
                  end;
       self' := self; trace := [EvHandler (Some user)] |}.
Proof.
  intros Huser. unfold call_route. rewrite bind_emit, Huser.
  destruct (func request) as [response | e];
    [rewrite bind_lift_ok, bind_get_self | rewrite bind_lift_raise]; reflexivity.
Qed.

(** C8. Service-unavailable precedence: while the bot is still [None],
    every request to a guarded route fails with [ServiceUnavailable],
    whose status is 503; the object is left as it was and the trace is
    empty, so neither the wrapped route nor Discord nor the bot has been
    called. *)
Theorem service_unavailable_precedence
    (func : Route) (force : bool) (scope : list string)
    (sg : option (Request -> string)) (sc : option (Request -> string -> bool))
    (request : Request) (self : DiscordOAuth) :
  bot self = None ->
  _wrap_route func force scope sg sc request self
  = {| outcome := Raise (ServiceUnavailable msg_not_ready); self' := self; trace := [] |}
  /\ status_of (ServiceUnavailable msg_not_ready) = Some 503.
Proof.
  intros Hbot. split; [| reflexivity].
  unfold _wrap_route. rewrite bind_get_self, Hbot. reflexivity.
Qed.

(** C1. Two successive [get_url] calls on a new object, for the same
    callback URL and the same scopes, send two requests to the authorize
    endpoint: the first call leaves [redirects] as it found it, so the
    second finds no cached URL either. *)
Theorem get_url_twice_two_round_trips
    (cid csecret key redirect_url : string) (scope : list string)
    (state1 state2 : option string) :
  let self := init cid csecret key in
  let r1 := get_url redirect_url scope state1 self in
  let r2 := get_url redirect_url scope state2 (self' r1) in
  provider_calls (trace r1 ++ trace r2)
  = [EvAuthorize (authorize_params self redirect_url scope);
     EvAuthorize (authorize_params self redirect_url scope)].
Proof.
  intros self r1 r2. subst r2 r1.
  rewrite (get_url_miss_run redirect_url scope state1 self) by reflexivity.
  cbn [self' trace].
  rewrite (get_url_miss_run redirect_url scope state2 (with_session self)) by reflexivity.
  reflexivity.
Qed.

(** C2. A callable passed to [require_login] as [state_generator] or
    [state_checker] is not used: the guarded route is the one obtained
    with [None] for both. *)
Theorem require_login_drops_callables
    (self : DiscordOAuth) (force : bool) (scope : list string)
    (generator : Request -> string) (checker : Request -> string -> bool) (func : Route) :
  require_login self force scope (callable_arg generator) (callable_arg checker) func
  = require_login self force scope none_arg none_arg func.
Proof. reflexivity. Qed.

(** C9. Authorize-URL construction: when no URL is cached for the
    callback URL and the authorize endpoint lands on [base?query], with
    no question mark in [base], [get_url] returns [base] as it is,
    followed by [?] and the rewritten query, followed by
    [&state=<value>] exactly when a non-empty state was passed.  The
    rewritten query has no [/] left; it is [query] itself when [query]
    has no [/]; and when the first [/] of [query] stands between [q1]
    and [q2], it is [q1], then [%2F], then the rewriting of [q2]: every
    [/] is replaced by [%2F] and nothing else is changed. *)
Theorem authorize_url_construction
    (redirect_url : string) (scope : list string) (state : option string)
    (self : DiscordOAuth) (base query : string) :
  get_redirect_oauth self redirect_url = None ->
  PyStr.find "?" base = -1 ->
  authorize (authorize_params self redirect_url scope) = Ok (base +:+ String "?" query) ->
  let rewritten := PyStr.replace "/" "%2F" query in
  outcome (get_url redirect_url scope state self)
  = Ok ((base +:+ String "?" rewritten)
        +:+ match state with
            | Some (String c rest) => "&state=" +:+ String c rest
            | _ => ""
            end)
  /\ PyStr.find "/" rewritten = -1
  /\ (PyStr.find "/" query = -1 -> rewritten = query)
  /\ (forall q1 q2,
        query = q1 +:+ String "/" q2 -> PyStr.find "/" q1 = -1 ->
        rewritten = q1 +:+ String "%" (String "2" (String "F" (PyStr.replace "/" "%2F" q2)))).
Proof.
  intros Hmiss Hbase Hloc rewritten. subst rewritten.
  split; [| split; [| split]].
  - rewrite (get_url_miss_run _ _ _ _ Hmiss), Hloc. cbn [outcome].
    rewrite (quote_query_split _ _ Hbase).
    unfold state_suffix. destruct state as [[|c rest]|]; reflexivity.
  - apply find_replace_slash.
  - apply replace_none.
  - intros q1 q2 -> Hq1. rewrite replace_app, (replace_none _ _ _ Hq1).
    cbn [PyStr.replace]. reflexivity.
Qed.

(** *** The cookie-present or force branch *)

Lemma get_user_cookie_run (cookie : string) (self : DiscordOAuth) :
  get_user_cookie cookie self
  = match bot self with
    | None => except_decrypt_error AttributeError self []
    | Some b =>
        match reprypt_decrypt cookie (secret_key self) convert_b64 with
        | None => except_decrypt_error DecryptError self []
        | Some plain =>
            match loads plain with
            | None => except_decrypt_error ValueError self []
            | Some d =>
                match getitem d "id" with
                | Raise e => except_decrypt_error e self []
                | Ok v =>
                    match py_int v with
                    | Raise e => except_decrypt_error e self []
                    | Ok n =>
                        match fetch_user b n with
                        | Raise e => except_decrypt_error e self [EvFetchUser n]
                        | Ok user => {| outcome := Ok (Some user); self' := self;
                                        trace := [EvFetchUser n] |}
                        end
                    end
                end
            end
        end
    end.
Proof.
  unfold get_user_cookie.
  destruct (bot self) as [b|] eqn:Hbot.
  2: { erewrite try_except_run; [| rewrite bind_get_self, Hbot; reflexivity]. reflexivity. }
  destruct (reprypt_decrypt cookie (secret_key self) convert_b64) as [plain|] eqn:Hdec.
  2: { erewrite try_except_run;
         [| rewrite bind_get_self, Hbot; unfold decrypt; rewrite Hdec; reflexivity].
       reflexivity. }
  destruct (loads plain) as [d|] eqn:Hloads.
  2: { erewrite try_except_run;
         [| rewrite bind_get_self, Hbot; unfold decrypt;
            rewrite Hdec, bind_ret, Hloads; reflexivity].
       reflexivity. }
  destruct (getitem d "id") as [v|e] eqn:Hitem.
  2: { erewrite try_except_run;
         [| rewrite bind_get_self, Hbot; unfold decrypt;
            rewrite Hdec, bind_ret, Hloads, bind_ret, Hitem; reflexivity].
       destruct e; reflexivity. }
  destruct (py_int v) as [n|e] eqn:Hint.
  2: { erewrite try_except_run;
         [| rewrite bind_get_self, Hbot; unfold decrypt;
            rewrite Hdec, bind_ret, Hloads, bind_ret, Hitem, bind_lift_ok, Hint;
            reflexivity].
       destruct e; reflexivity. }
  destruct (fetch_user b n) as [user|e] eqn:Hfetch.
  - erewrite try_except_run;
      [| rewrite bind_get_self, Hbot; unfold decrypt;
         rewrite Hdec, bind_ret, Hloads, bind_ret, Hitem, bind_lift_ok, Hint,
           bind_lift_ok, bind_emit, Hfetch, bind_lift_ok; reflexivity].
    reflexivity.
  - erewrite try_except_run;
      [| rewrite bind_get_self, Hbot; unfold decrypt;
         rewrite Hdec, bind_ret, Hloads, bind_ret, Hitem, bind_lift_ok, Hint,
           bind_lift_ok, bind_emit, Hfetch; reflexivity].
    destruct e; reflexivity.
Qed.

Lemma except_decrypt_error_frame (e : exn) (self : DiscordOAuth) (t : list event) :
  self' (except_decrypt_error e self t) = self
  /\ trace (except_decrypt_error e self t) = t.
Proof. destruct e; split; reflexivity. Qed.


Lemma get_user_cookie_decrypt_error (cookie : string) (self : DiscordOAuth) (b : TypedBot) :
  bot self = Some b ->
  reprypt_decrypt cookie (secret_key self) convert_b64 = None ->
  get_user_cookie cookie self = {| outcome := Ok None; self' := self; trace := [] |}.
Proof. intros Hbot Hfail. now rewrite get_user_cookie_run, Hbot, Hfail. Qed.


Lemma wrap_route_cookie_branch
    (func : Route) (force : bool) (scope : list string)
    (sg : option (Request -> string)) (sc : option (Request -> string -> bool))
    (request : Request) (self : DiscordOAuth) (b : TypedBot) :
  bot self = Some b ->
  PyStr.truthy (cookies request !! "session") || force = true ->
  _wrap_route func force scope sg sc request self
  = (do user <- cookie_user request;
     call_route func normal (set_ctx_user request user)) self.
Proof.
  intros Hbot Hbranch. unfold _wrap_route.
  rewrite bind_get_self, Hbot. cbv zeta. rewrite Hbranch. reflexivity.
Qed.

(** C6. Corrupted-cookie recovery: once the bot is there, a request
    whose session cookie does not decrypt (a non-empty cookie, or any
    cookie on a forced route) reaches the wrapped route with [user = None];
    the guard returns what the route returns and raises nothing of its
    own, and nothing but the route is called. *)
Theorem corrupted_cookie_is_anonymous
    (func : Route) (force : bool) (scope : list string)
    (sg : option (Request -> string)) (sc : option (Request -> string -> bool))
    (request : Request) (self : DiscordOAuth) (b : TypedBot) (cookie : string) :
  bot self = Some b ->
  cookies request !! "session" = Some cookie ->
  cookie <> "" \/ force = true ->
  reprypt_decrypt cookie (secret_key self) convert_b64 = None ->
  _wrap_route func force scope sg sc request self
  = {| outcome := func (set_ctx_user request None); self' := self;
       trace := [EvHandler None] |}.
Proof.
  intros Hbot Hcookie Hbranch Hfail.
  assert (Hlookup : cookie_user request self
                    = {| outcome := Ok None; self' := self; trace := [] |}).
  { unfold cookie_user. rewrite Hcookie.
    destruct cookie as [|c rest]; [reflexivity |].
    now apply (get_user_cookie_decrypt_error _ _ b). }
  rewrite (wrap_route_cookie_branch _ _ _ _ _ _ _ b Hbot).
  - rewrite (bind_run _ _ _ _ _ _ Hlookup), call_route_normal_run. reflexivity.
  - rewrite Hcookie. destruct cookie as [|c rest]; [| reflexivity].
    destruct Hbranch as [Hne | ->]; [congruence | reflexivity].
Qed.


(** *** The callback phase *)

Lemma wrap_route_callback_branch
    (func : Route) (scope : list string)
    (sg : option (Request -> string)) (sc : option (Request -> string -> bool))
    (request : Request) (self : DiscordOAuth) (b : TypedBot) :
  bot self = Some b ->
  PyStr.truthy (cookies request !! "session") = false ->
  args request ≠ ∅ ->
  _wrap_route func false scope sg sc request self
  = (check_state sg sc request ;;
     do user <-
       try_except
         (do tok <- get_token (args request !! "code") (make_url request (path request));
          do access_token <- lift (getitem tok "access_token");
          get_userdata access_token)
         (fun e => match e with
                   | ClientResponseError detail =>
                       Some (raise (SanicException (msg_fetch_failed +:+ detail) 400))
                   | _ => None
                   end);
     call_route func write_cookie (set_ctx_user request (Some user))) self.
Proof.
  intros Hbot Hnocookie Hargs. unfold _wrap_route.
  rewrite bind_get_self, Hbot. cbv zeta.
  rewrite Hnocookie, (bool_decide_eq_true_2 _ Hargs). reflexivity.
Qed.

Lemma check_state_accepted sg sc request self :
  state_accepted sg sc request ->
  check_state sg sc request self = {| outcome := Ok tt; self' := self; trace := [] |}.
Proof.
  unfold state_accepted, check_state.
  destruct sg as [g|]; [| reflexivity].
  destruct sc as [checker|]; [| contradiction].
  intros ->. reflexivity.
Qed.

Lemma encrypt_with_session (self : DiscordOAuth) (data : json) :
  encrypt (with_session self) data = encrypt self data.
Proof. unfold encrypt, with_session. now destruct (_session self). Qed.

Lemma bot_with_session (self : DiscordOAuth) : bot (with_session self) = bot self.
Proof. unfold with_session. now destruct (_session self). Qed.

(** The exchange of the code and the fetch of the user, run together. *)
Lemma fetch_user_run (code : option string) (callback_url : string)
    (self : DiscordOAuth) (b : TypedBot) :
  bot self = Some b ->
  let data := token_data self code callback_url in
  (do tok <- get_token code callback_url;
   do access_token <- lift (getitem tok "access_token");
   get_userdata access_token) self
  = match token data with
    | Raise e => {| outcome := Raise e; self' := with_session self; trace := [EvToken data] |}
    | Ok tok =>
        match getitem tok "access_token" with
        | Raise e => {| outcome := Raise e; self' := with_session self;
                        trace := [EvToken data] |}
        | Ok access_token =>
            {| outcome := users_me access_token;
               self' := with_session (with_session self);
               trace := [EvToken data; EvUsersMe access_token] |}
        end
    end.
Proof.
  intros Hbot data. rewrite (bind_run _ _ _ _ _ _ (get_token_run code callback_url self)).
  fold data. destruct (token data) as [tok | e]; [| reflexivity].
  destruct (getitem tok "access_token") as [access_token | e];
    [rewrite bind_lift_ok | rewrite bind_lift_raise; reflexivity].
  assert (Hbot' : bot (with_session self) = Some b) by now rewrite bot_with_session.
  rewrite (get_userdata_run access_token _ b Hbot'). reflexivity.
Qed.

(** C4. Callback success path: for a request without session cookie on
    an unforced route, carrying a [code] and an accepted state, the guard
    posts the code to the token endpoint, then fetches the user with the
    access token, then calls the wrapped route with that user, and adds
    to the route's response the session cookie that is the encryption of
    the user's [id] and [name]: in the answer the cookie [session] is
    that text, under [secret_key] and the default converter, and status,
    body and the other cookies are the route's; when the token endpoint or the user
    endpoint answers with an HTTP error, the guard raises a 400 whose
    message ends with the error's text, and the route is not called, so
    no cookie is written. *)
Theorem callback_success_path
    (func : Route) (scope : list string)
    (sg : option (Request -> string)) (sc : option (Request -> string -> bool))
    (request : Request) (self : DiscordOAuth) (b : TypedBot) (code : string) :
  bot self = Some b ->
  PyStr.truthy (cookies request !! "session") = false ->
  args request !! "code" = Some code ->
  state_accepted sg sc request ->
  let r := _wrap_route func false scope sg sc request self in
  let data := token_data self (Some code) (make_url request (path request)) in
  (forall tok access_token user,
      token data = Ok tok ->
      getitem tok "access_token" = Ok access_token ->
      users_me access_token = Ok user ->
      trace r = [EvToken data; EvUsersMe access_token; EvHandler (Some user)]
      /\ outcome r =
         match func (set_ctx_user request (Some user)) with
         | Ok response =>
             Ok (set_cookie "session" (encrypt self (CookieData (id user) (name user))) response)
         | Raise e => Raise e
         end
      /\ forall response,
           func (set_ctx_user request (Some user)) = Ok response ->
           exists answer,
             outcome r = Ok answer
             /\ resp_cookies answer !! "session"
                = Some (reprypt_encrypt
                          (dumps (JObj [("id", JInt (id user)); ("name", JStr (name user))]))
                          (secret_key self) convert_b64)
             /\ status answer = status response
             /\ body answer = body response
             /\ forall k, k <> "session" ->
                   resp_cookies answer !! k = resp_cookies response !! k)
  /\ (forall detail,
        token data = Raise (ClientResponseError detail) ->
        outcome r = Raise (SanicException (msg_fetch_failed +:+ detail) 400)
        /\ status_of (SanicException (msg_fetch_failed +:+ detail) 400) = Some 400
        /\ trace r = [EvToken data])
  /\ (forall tok access_token detail,
        token data = Ok tok ->
        getitem tok "access_token" = Ok access_token ->
        users_me access_token = Raise (ClientResponseError detail) ->
        outcome r = Raise (SanicException (msg_fetch_failed +:+ detail) 400)
        /\ trace r = [EvToken data; EvUsersMe access_token]).
Proof.
  intros Hbot Hnocookie Hcode Hstate r data. subst r.
  assert (Hargs : args request ≠ ∅).
  { intros Hempty. rewrite Hempty, lookup_empty in Hcode. discriminate. }
  rewrite (wrap_route_callback_branch _ _ _ _ _ _ b Hbot Hnocookie Hargs).
  rewrite (bind_run _ _ _ _ _ _ (check_state_accepted _ _ _ self Hstate)).
  cbv beta iota. rewrite Hcode.
  pose proof (fetch_user_run (Some code) (make_url request (path request)) self b Hbot)
    as Hfetch.
  cbv zeta in Hfetch. fold data in Hfetch.
  split; [| split].
  - intros tok access_token user Htok Hitem Huser.
    rewrite Htok, Hitem, Huser in Hfetch.
    erewrite bind_run; [| erewrite try_except_run; [| exact Hfetch]; reflexivity].
    cbv beta iota.
    rewrite (call_route_write_run _ _ user) by reflexivity.
    rewrite !encrypt_with_session. cbn [outcome trace].
    split; [reflexivity |]. split; [reflexivity |].
    intros response Hfunc. rewrite Hfunc. eexists. split; [reflexivity |].
    unfold set_cookie. cbn [resp_cookies status body].
    split; [apply lookup_insert_eq |]. split; [reflexivity |]. split; [reflexivity |].
    intros k Hk. now rewrite lookup_insert_ne by congruence.
  - intros detail Htok. rewrite Htok in Hfetch.
    erewrite bind_run; [| erewrite try_except_run; [| exact Hfetch]; reflexivity].
    repeat split; reflexivity.
  - intros tok access_token detail Htok Hitem Huser.
    rewrite Htok, Hitem, Huser in Hfetch.
    erewrite bind_run; [| erewrite try_except_run; [| exact Hfetch]; reflexivity].
    split; reflexivity.
Qed.

(** C3 (as the code has it). Callback-phase CSRF enforcement: for a
    request in the callback phase, when a state generator and a state
    checker are both set and the checker rejects the [state] parameter
    (the empty text when it is absent), the guard raises a 403, leaves
    the object as it was and calls nothing: neither the wrapped route nor
    Discord; and when no state generator is set, the guard behaves the
    same whatever the checker, so no validation takes place. *)
Theorem callback_state_enforcement
    (func : Route) (scope : list string)
    (generator : Request -> string) (checker : Request -> string -> bool)
    (sc : option (Request -> string -> bool))
    (request : Request) (self : DiscordOAuth) (b : TypedBot) :
  bot self = Some b ->
  PyStr.truthy (cookies request !! "session") = false ->
  args request ≠ ∅ ->
  (checker request (default "" (args request !! "state")) = false ->
   _wrap_route func false scope (Some generator) (Some checker) request self
   = {| outcome := Raise (SanicException msg_bad_state 403); self' := self; trace := [] |}
   /\ status_of (SanicException msg_bad_state 403) = Some 403)
  /\ _wrap_route func false scope None sc request self
     = _wrap_route func false scope None None request self.
Proof.
  intros Hbot Hnocookie Hargs. split; [| reflexivity].
  intros Hreject. split; [| reflexivity].
  rewrite (wrap_route_callback_branch _ _ _ _ _ _ b Hbot Hnocookie Hargs).
  assert (Hcheck : check_state (Some generator) (Some checker) request self
                   = {| outcome := Raise (SanicException msg_bad_state 403);
                        self' := self; trace := [] |}).
  { unfold check_state. rewrite Hreject. reflexivity. }
  rewrite (bind_run _ _ _ _ _ _ Hcheck). reflexivity.
Qed.

Lemma cookie_data_id (i : Z) (n : string) : getitem (CookieData i n) "id" = Ok (JInt i).
Proof. reflexivity. Qed.

Section RoundTrips.
Context {cipher_law : RepryptRoundTrip}.

(** C5. State binding: the default checker accepts the state the default
    generator made for the same request; it rejects the state made for a
    request whose host followed by its address is a different text; and
    on a state that does not decrypt it answers [false]. *)
Theorem state_binding (self : DiscordOAuth) (req req1 req2 : Request) (state : string) :
  state_checker self req (state_generator self req) = true
  /\ (host req1 +:+ ip req1 <> host req2 +:+ ip req2 ->
      state_checker self req2 (state_generator self req1) = false)
  /\ (reprypt_decrypt state (secret_key self) convert_hex = None ->
      state_checker self req state = false).
Proof.
  unfold state_checker, state_generator. repeat split.
  - rewrite decrypt_encrypt. apply String.eqb_refl.
  - intros Hne. rewrite decrypt_encrypt. apply String.eqb_neq. congruence.
  - intros Hfail. now rewrite Hfail.
Qed.

Context {codec_law : UjsonRoundTrip}.

(** C10. Session-cookie agreement: the cookie written in write-cookie
    mode is the encryption, under [secret_key] and the default converter,
    of the object with keys [id] and [name]; read back by
    [get_user_cookie], it makes the bot look up that same user id, and
    the user the bot finds is the one returned. *)
Theorem session_cookie_agreement
    (func : Route) (request : Request) (user : User) (self : DiscordOAuth)
    (b : TypedBot) (response : HTTPResponse) :
  bot self = Some b ->
  func (set_ctx_user request (Some user)) = Ok response ->
  let written := call_route func write_cookie (set_ctx_user request (Some user)) self in
  let cookie := reprypt_encrypt (dumps (JObj [("id", JInt (id user)); ("name", JStr (name user))]))
                  (secret_key self) convert_b64 in
  let read := get_user_cookie cookie (self' written) in
  outcome written = Ok (set_cookie "session" cookie response)
  /\ resp_cookies (set_cookie "session" cookie response) !! "session" = Some cookie
  /\ trace read = [EvFetchUser (id user)]
  /\ forall found, fetch_user b (id user) = Ok found -> outcome read = Ok (Some found).
Proof.
  intros Hbot Hfunc written cookie read. subst read written.
  rewrite (call_route_write_run _ _ user) by reflexivity.
  rewrite Hfunc. cbn [outcome self'].
  split; [reflexivity |]. split; [apply lookup_insert_eq |].
  rewrite get_user_cookie_run, Hbot. subst cookie.
  rewrite decrypt_encrypt.
  change (JObj [("id", JInt (id user)); ("name", JStr (name user))])
    with (CookieData (id user) (name user)).
  rewrite loads_dumps.
  rewrite cookie_data_id. cbn [py_int].
  destruct (fetch_user b (id user)) as [found | e].
  - split; [reflexivity |]. intros found' [= <-]. reflexivity.
  - split; [destruct e; reflexivity | discriminate].
Qed.

End RoundTrips.

End Facts.


(** ** Further properties of the class *)

Section More.
Context `{Reprypt} `{Ujson} `{DiscordAPI} `{Sanic}.

(** *** The redirect cache *)

(** X1. After [reset_oauth url] no URL is cached for [url], and what is
    cached for any other callback URL is what it was. *)
Theorem reset_oauth_lookup (url other : string) (self : DiscordOAuth) :
  let after := self' (reset_oauth url self) in
  get_redirect_oauth after url = None
  /\ (other <> url -> get_redirect_oauth after other = get_redirect_oauth self other).
Proof.
  cbv zeta. unfold get_redirect_oauth, reset_oauth, modify. cbn [self' redirects set_redirects].
  split.
  - now rewrite lookup_insert_eq.
  - intros Hne. now rewrite lookup_insert_ne by congruence.
Qed.

(** X2. [reset_oauth] never removes a key: the keys of [redirects] after
    it are the old keys and [url], also when [url] was never there; the
    call returns normally and reaches no collaborator. *)
Theorem reset_oauth_keys (url : string) (self : DiscordOAuth) :
  let r := reset_oauth url self in
  dom (redirects (self' r)) = {[url]} ∪ dom (redirects self)
  /\ redirects (self' r) !! url = Some None
  /\ outcome r = Ok tt /\ trace r = [].
Proof.
  cbv zeta. unfold reset_oauth, modify. cbn [self' outcome trace redirects set_redirects].
  split; [apply dom_insert_L |]. split; [apply lookup_insert_eq |]. split; reflexivity.
Qed.

(** The object after resetting the keys of a list, one after the other. *)
Lemma reset_keys_run (keys : list string) (self : DiscordOAuth) :
  foldr (fun key k => reset_oauth key ;; k) (ret tt) keys self
  = {| outcome := Ok tt;
       self' := foldl (fun s key => set_redirects (<[key := None]> (redirects s)) s) self keys;
       trace := [] |}.
Proof.
  revert self. induction keys as [|key keys IH]; intros self; [reflexivity |].
  cbn [foldr foldl]. unfold reset_oauth at 1. rewrite bind_modify. apply IH.
Qed.

Lemma reset_keys_lookup (keys : list string) (self : DiscordOAuth) (url : string) :
  redirects (foldl (fun s key => set_redirects (<[key := None]> (redirects s)) s) self keys)
    !! url
  = if decide (url ∈ keys) then Some None else redirects self !! url.
Proof.
  revert self. induction keys as [|key keys IH]; intros self.
  - cbn [foldl]. case_decide as Hin; [| reflexivity]. now apply elem_of_nil in Hin.
  - cbn [foldl]. rewrite IH. cbn [redirects set_redirects].
    destruct (decide (url ∈ keys)) as [Hin | Hnotin].
    + rewrite decide_True by (now apply elem_of_cons; right). reflexivity.
    + destruct (decide (url = key)) as [-> | Hne].
      * rewrite lookup_insert_eq, decide_True by (apply elem_of_cons; now left). reflexivity.
      * rewrite lookup_insert_ne by congruence.
        rewrite decide_False; [reflexivity |].
        intros [Heq | Hin]%elem_of_cons; contradiction.
Qed.

Lemma elem_of_keys (m : gmap string (option string)) (url : string) :
  url ∈ map fst (map_to_list m) <-> is_Some (m !! url).
Proof.
  rewrite list_elem_of_In, List.in_map_iff. split.
  - intros [[k v] [Hk Hin]]. cbn in Hk. subst k.
    apply list_elem_of_In, elem_of_map_to_list in Hin. now exists v.
  - intros [v Hv]. exists (url, v). split; [reflexivity |].
    now apply list_elem_of_In, elem_of_map_to_list.
Qed.

(** X3. After [reset_all_oauth] no URL is cached for any callback URL,
    and [redirects] has the keys it had, each bound to [None]; the call
    returns normally and reaches no collaborator. *)
Theorem reset_all_oauth_clears (self : DiscordOAuth) (url : string) :
  let r := reset_all_oauth self in
  get_redirect_oauth (self' r) url = None
  /\ dom (redirects (self' r)) = dom (redirects self)
  /\ outcome r = Ok tt /\ trace r = [].
Proof.
  cbv zeta. unfold reset_all_oauth. rewrite bind_get_self, reset_keys_run.
  cbn [self' outcome trace].
  split; [| split; [| split; reflexivity]].
  - unfold get_redirect_oauth. rewrite reset_keys_lookup.
    case_decide as Hin; [reflexivity |].
    destruct (redirects self !! url) as [v|] eqn:Hv; [| reflexivity].
    exfalso. apply Hin, elem_of_keys. now exists v.
  - apply set_eq. intros k. rewrite !elem_of_dom, reset_keys_lookup.
    case_decide as Hin.
    + split; [intros _; now apply elem_of_keys | intros _; now exists None].
    + reflexivity.
Qed.

(** X4. When [redirects] holds a URL for the callback URL, [get_url]
    answers with that URL, followed by [&state=<value>] for a non-empty
    state, without any request to Discord and without touching the
    object: no HTTP session is created. *)
Theorem get_url_cached (redirect_url : string) (scope : list string)
    (state : option string) (self : DiscordOAuth) (url : string) :
  get_redirect_oauth self redirect_url = Some url ->
  get_url redirect_url scope state self
  = {| outcome := Ok (url +:+ match state with
                            | Some (String c rest) => "&state=" +:+ String c rest
                            | _ => ""
                            end);
       self' := self; trace := [] |}.
Proof.
  intros Hhit. unfold get_url. rewrite bind_get_self, Hhit, bind_ret.
  unfold state_suffix. destruct state as [[|c rest]|]; reflexivity.
Qed.


(** *** What a call may change in the object *)

Lemma with_session_idem (self : DiscordOAuth) :
  with_session (with_session self) = with_session self.
Proof.
  unfold with_session. destruct (_session self) eqn:E; [now rewrite E | reflexivity].
Qed.

Lemma with_session_same (self : DiscordOAuth) : same_but_session self (with_session self).
Proof. unfold with_session, same_but_session. destruct (_session self); repeat split. Qed.

Lemma with_session_open (self : DiscordOAuth) : _session self = true -> with_session self = self.
Proof. unfold with_session. now intros ->. Qed.

Lemma with_session_opened (self : DiscordOAuth) : _session (with_session self) = true.
Proof. unfold with_session. now destruct (_session self) eqn:E. Qed.

Lemma opens_same {A} (m : M A) (self : DiscordOAuth) :
  at_most_opens m -> same_but_session self (self' (m self)).
Proof.
  intros Hm. destruct (Hm self) as [-> | ->]; [repeat split | apply with_session_same].
Qed.

Lemma opens_ret {A} (a : A) : at_most_opens (ret a).
Proof. intros self. now left. Qed.

Lemma opens_raise {A} (e : exn) : at_most_opens (@raise A e).
Proof. intros self. now left. Qed.

Lemma opens_lift {A} (r : result A) : at_most_opens (lift r).
Proof. intros self. now left. Qed.

Lemma opens_emit (e : event) : at_most_opens (emit e).
Proof. intros self. now left. Qed.

Lemma opens_get_self : at_most_opens get_self.
Proof. intros self. now left. Qed.

Lemma opens_session : at_most_opens session.
Proof. intros self. now right. Qed.

Lemma opens_bind {A B} (m : M A) (k : A -> M B) :
  at_most_opens m -> (forall a, at_most_opens (k a)) -> at_most_opens (bind m k).
Proof.
  intros Hm Hk self. unfold bind. specialize (Hm self).
  destruct (m self) as [[a | e] s t]; cbn [outcome self' trace] in *; [| exact Hm].
  specialize (Hk a s).
  destruct Hm as [-> | ->]; [exact Hk |].
  destruct Hk as [-> | ->]; right; [reflexivity | apply with_session_idem].
Qed.

Lemma opens_try_except {A} (m : M A) (h : exn -> option (M A)) :
  at_most_opens m -> (forall e k, h e = Some k -> at_most_opens k) ->
  at_most_opens (try_except m h).
Proof.
  intros Hm Hh self. unfold try_except. specialize (Hm self).
  destruct (m self) as [[a | e] s t]; cbn [outcome self' trace] in *; [exact Hm |].
  destruct (h e) as [k |] eqn:Hk; cbn [outcome self' trace]; [| exact Hm].
  specialize (Hh e k Hk s).
  destruct Hm as [-> | ->]; [exact Hh |].
  destruct Hh as [-> | ->]; right; [reflexivity | apply with_session_idem].
Qed.

Ltac opens :=
  repeat first
    [ apply opens_ret | apply opens_raise | apply opens_lift | apply opens_emit
    | apply opens_get_self | apply opens_session
    | apply opens_bind; [| intros ?]
    | match goal with
      | |- at_most_opens (match ?x with _ => _ end) => destruct x
      end ].

Lemma opens_get_url redirect_url scope state : at_most_opens (get_url redirect_url scope state).
Proof. unfold get_url. opens. Qed.

Lemma opens_get_token code callback_url : at_most_opens (get_token code callback_url).
Proof. unfold get_token. opens. Qed.

Lemma opens_get_userdata access_token : at_most_opens (get_userdata access_token).
Proof. unfold get_userdata. opens. Qed.

Lemma opens_get_user_cookie cookie : at_most_opens (get_user_cookie cookie).
Proof.
  unfold get_user_cookie, decrypt. apply opens_try_except; [opens |].
  intros e k Hk. destruct e; try discriminate. injection Hk as <-. opens.
Qed.

Lemma opens_call_route func mode request : at_most_opens (call_route func mode request).
Proof. unfold call_route. opens. Qed.

Lemma opens_wrap_route func force scope sg sc request :
  at_most_opens (_wrap_route func force scope sg sc request).
Proof.
  unfold _wrap_route. apply opens_bind; [opens | intros self].
  destruct (bot self); [| opens]. cbv zeta.
  destruct (PyStr.truthy (cookies request !! "session") || force).
  - apply opens_bind; [| intros user; apply opens_call_route].
    unfold cookie_user. destruct (PyStr.truthy _); [apply opens_get_user_cookie | opens].
  - destruct (bool_decide (args request ≠ ∅)).
    + apply opens_bind; [unfold check_state; opens | intros _].
      apply opens_bind; [| intros user; apply opens_call_route].
      apply opens_try_except.
      * apply opens_bind; [apply opens_get_token | intros tok].
        apply opens_bind; [opens | intros access_token]. apply opens_get_userdata.
      * intros e k Hk. destruct e; try discriminate. injection Hk as <-. opens.
    + apply opens_bind; [apply opens_get_url | intros url; opens].
Qed.

(** X5. Whatever the phase and however it ends, a request to a guarded
    route changes nothing in the object but, at most, the creation of
    the HTTP session: credentials, secret key, bot and [redirects] are
    as before, and an object whose session exists is left as it is. *)
Theorem wrap_route_frame
    (func : Route) (force : bool) (scope : list string)
    (sg : option (Request -> string)) (sc : option (Request -> string -> bool))
    (request : Request) (self : DiscordOAuth) :
  let after := self' (_wrap_route func force scope sg sc request self) in
  same_but_session self after /\ (_session self = true -> after = self).
Proof.
  cbv zeta. split; [apply opens_same, opens_wrap_route |].
  intros Hopen.
  destruct (opens_wrap_route func force scope sg sc request self) as [-> | ->];
    [reflexivity | now apply with_session_open].
Qed.

(** *** Sequences of calls *)

(** What the two resetting methods leave of [redirects]. *)
Lemma reset_all_oauth_redirects (self : DiscordOAuth) (url : string) :
  redirects (self' (reset_all_oauth self)) !! url
  = (fun _ => None) <$> (redirects self !! url).
Proof.
  unfold reset_all_oauth. rewrite bind_get_self, reset_keys_run. cbn [self'].
  rewrite reset_keys_lookup. case_decide as Hin.
  - apply elem_of_keys in Hin as [v ->]. reflexivity.
  - destruct (redirects self !! url) as [v|] eqn:Hv; [| reflexivity].
    exfalso. apply Hin, elem_of_keys. now exists v.
Qed.

Lemma reset_keys_fields (keys : list string) (self : DiscordOAuth) :
  let s := foldl (fun s key => set_redirects (<[key := None]> (redirects s)) s) self keys in
  client_id s = client_id self /\ client_secret s = client_secret self
  /\ secret_key s = secret_key self /\ _session s = _session self /\ bot s = bot self.
Proof.
  cbv zeta. revert self. induction keys as [|key keys IH]; intros self; [repeat split |].
  cbn [foldl]. destruct (IH (set_redirects (<[key := None]> (redirects self)) self))
    as (-> & -> & -> & -> & ->). repeat split.
Qed.

Lemma kept_refl (self : DiscordOAuth) : kept self self.
Proof. repeat split; auto. Qed.

Lemma kept_trans (a b c : DiscordOAuth) : kept a b -> kept b c -> kept a c.
Proof.
  intros (I1 & I2 & I3 & I4 & I5 & I6 & I7) (J1 & J2 & J3 & J4 & J5 & J6 & J7).
  repeat split; try congruence; auto.
  set_solver.
Qed.

Lemma kept_with_session (self : DiscordOAuth) : kept self (with_session self).
Proof.
  unfold with_session. destruct (_session self) eqn:E; [apply kept_refl |].
  repeat split; auto.
Qed.

Lemma kept_opens {A} (m : M A) (self : DiscordOAuth) :
  at_most_opens m -> kept self (self' (m self)).
Proof.
  intros Hm. destruct (Hm self) as [-> | ->]; [apply kept_refl | apply kept_with_session].
Qed.

Lemma kept_reset_oauth (url : string) (self : DiscordOAuth) :
  kept self (self' (reset_oauth url self)).
Proof.
  unfold reset_oauth, modify. cbn [self'].
  repeat split; auto; cbn [redirects set_redirects].
  - rewrite dom_insert_L. set_solver.
  - intros Hnone other. unfold get_redirect_oauth in *. cbn [redirects set_redirects].
    destruct (decide (other = url)) as [-> | Hne];
      [now rewrite lookup_insert_eq | rewrite lookup_insert_ne by congruence; apply Hnone].
Qed.

Lemma kept_reset_all_oauth (self : DiscordOAuth) :
  kept self (self' (reset_all_oauth self)).
Proof.
  assert (Hfields := reset_keys_fields (map fst (map_to_list (redirects self))) self).
  assert (Hlookup := reset_all_oauth_redirects self).
  unfold reset_all_oauth in *. rewrite bind_get_self, reset_keys_run in *.
  cbn [self'] in *. cbv zeta in Hfields.
  destruct Hfields as (F1 & F2 & F3 & F4 & F5).
  repeat split; auto; try congruence.
  - intros k. rewrite !elem_of_dom, Hlookup. intros [v ->]. now exists None.
  - intros _ url. unfold get_redirect_oauth. rewrite Hlookup.
    now destruct (redirects self !! url).
Qed.

Lemma kept_set_bot (b : TypedBot) (self : DiscordOAuth) : kept self (set_bot b self).
Proof. repeat split; auto; intros _; now exists b. Qed.

Lemma kept_after (c : call) (self : DiscordOAuth) : kept self (after c self).
Proof.
  destruct c; cbn [after].
  - apply kept_opens, opens_session.
  - apply kept_opens, opens_get_url.
  - apply kept_opens, opens_get_token.
  - apply kept_opens, opens_get_userdata.
  - apply kept_opens, opens_get_user_cookie.
  - apply kept_reset_oauth.
  - apply kept_reset_all_oauth.
  - apply kept_opens, opens_wrap_route.
  - apply kept_set_bot.
Qed.

Lemma kept_after_all (calls : list call) (self : DiscordOAuth) :
  kept self (after_all calls self).
Proof.
  unfold after_all. revert self.
  induction calls as [|c calls IH]; intros self; cbn [foldl]; [apply kept_refl |].
  eapply kept_trans; [apply kept_after | apply IH].
Qed.

(** X6. The URL cache is never filled: on an object made by [__init__]
    and used through the methods of the class in any order (with the
    start-up task run at any point), no callback URL ever has a cached
    authorize URL, so every [get_url] sends a request to Discord's
    authorize endpoint. *)
Theorem cache_never_filled (calls : list call) (cid csecret key : string)
    (redirect_url : string) (scope : list string) (state : option string) :
  let self := after_all calls (init cid csecret key) in
  get_redirect_oauth self redirect_url = None
  /\ trace (get_url redirect_url scope state self)
     = [EvAuthorize (authorize_params self redirect_url scope)].
Proof.
  cbv zeta.
  assert (Hnone : forall url,
             get_redirect_oauth (after_all calls (init cid csecret key)) url = None).
  { destruct (kept_after_all calls (init cid csecret key)) as (_ & _ & _ & _ & _ & _ & Hkeep).
    apply Hkeep. intros url. reflexivity. }
  split; [apply Hnone |].
  rewrite get_url_miss_run by apply Hnone. reflexivity.
Qed.

(** X7. Over any sequence of calls the credentials and the secret key
    stay what they were, an HTTP session that exists stays, a bot that is
    set stays set, and no key leaves [redirects]. *)
Theorem call_sequence_invariants (calls : list call) (self : DiscordOAuth) :
  let after := after_all calls self in
  client_id after = client_id self
  /\ client_secret after = client_secret self
  /\ secret_key after = secret_key self
  /\ (_session self = true -> _session after = true)
  /\ (is_Some (bot self) -> is_Some (bot after))
  /\ dom (redirects self) ⊆ dom (redirects after).
Proof.
  cbv zeta.
  destruct (kept_after_all calls self) as (I1 & I2 & I3 & I4 & I5 & I6 & _).
  repeat split; assumption.
Qed.

(** X8. The HTTP session is created by the first method that needs it
    and reused afterwards: after [get_token] the session exists, and a
    further [get_token], [get_userdata] or [get_url] leaves the object as
    that first call left it. *)
Theorem session_created_once (code code2 : option string) (callback_url callback_url2 : string)
    (access_token : json) (redirect_url : string) (scope : list string)
    (state : option string) (self : DiscordOAuth) :
  let first := self' (get_token code callback_url self) in
  _session first = true
  /\ self' (get_token code2 callback_url2 first) = first
  /\ self' (get_userdata access_token first) = first
  /\ self' (get_url redirect_url scope state first) = first.
Proof.
  cbv zeta. rewrite get_token_run. cbn [self'].
  pose proof (with_session_opened self) as Hopen.
  split; [exact Hopen |].
  split; [| split].
  - rewrite get_token_run. cbn [self']. apply with_session_idem.
  - destruct (opens_get_userdata access_token (with_session self)) as [-> | ->];
      [reflexivity | apply with_session_idem].
  - destruct (opens_get_url redirect_url scope state (with_session self)) as [-> | ->];
      [reflexivity | apply with_session_idem].
Qed.

(** *** The login phase *)

Lemma wrap_route_login_branch
    (func : Route) (scope : list string)
    (sg : option (Request -> string)) (sc : option (Request -> string -> bool))
    (request : Request) (self : DiscordOAuth) (b : TypedBot) :
  bot self = Some b ->
  PyStr.truthy (cookies request !! "session") = false ->
  args request = ∅ ->
  _wrap_route func false scope sg sc request self
  = (do url <- get_url (make_url request (path request)) scope
                 (match sg with
                  | Some generator => Some (generator request)
                  | None => None
                  end);
     ret (redirect url)) self.
Proof.
  intros Hbot Hnocookie Hargs. unfold _wrap_route.
  rewrite bind_get_self, Hbot. cbv zeta.
  assert (Hno : ¬ (args request ≠ ∅)) by (intros Hne; now apply Hne).
  rewrite Hnocookie, (bool_decide_eq_false_2 _ Hno). reflexivity.
Qed.

(** X9. Login phase: a request without session cookie and without query
    parameters to an unforced route makes exactly one call, the GET to
    the authorize endpoint with the request's own URL as [redirect_uri];
    the answer is Sanic's redirect to the rewritten URL followed by the
    state of the generator, if one is set: a 302 without cookies whose
    [Location] is that URL as Sanic quotes it; the wrapped route is not
    called and the checker plays no part; an error of the authorize
    request is passed on as it is. *)
Theorem login_phase_redirects
    (func : Route) (scope : list string)
    (sg : option (Request -> string)) (sc : option (Request -> string -> bool))
    (request : Request) (self : DiscordOAuth) (b : TypedBot) :
  bot self = Some b ->
  PyStr.truthy (cookies request !! "session") = false ->
  args request = ∅ ->
  get_redirect_oauth self (make_url request (path request)) = None ->
  let params := authorize_params self (make_url request (path request)) scope in
  let state := match sg with Some generator => Some (generator request) | None => None end in
  let r := _wrap_route func false scope sg sc request self in
  r = {| outcome := match authorize params with
                    | Ok landed => Ok (redirect (quote_query landed +:+ state_suffix state))
                    | Raise e => Raise e
                    end;
         self' := with_session self;
         trace := [EvAuthorize params] |}
  /\ forall landed,
       authorize params = Ok landed ->
       exists answer,
         outcome r = Ok answer
         /\ status answer = 302
         /\ location answer
            = Some (quote_location (quote_query landed +:+ state_suffix state))
         /\ resp_cookies answer = ∅.
Proof.
  intros Hbot Hnocookie Hargs Hmiss params state r. subst r.
  rewrite (wrap_route_login_branch _ _ _ _ _ _ b Hbot Hnocookie Hargs).
  rewrite (bind_run _ _ _ _ _ _ (get_url_miss_run _ scope state self Hmiss)).
  fold params. split.
  - destruct (authorize params); reflexivity.
  - intros landed ->. eexists. split; [reflexivity |]. repeat split.
Qed.

(** *** The cookie-present or force branch, continued *)

(** X10. A forced route never starts a login: with [force] set and no
    session cookie (or an empty one) the wrapped route is called with
    [user = None], whatever the query parameters, and nothing else is
    called. *)
Theorem forced_route_without_cookie
    (func : Route) (scope : list string)
    (sg : option (Request -> string)) (sc : option (Request -> string -> bool))
    (request : Request) (self : DiscordOAuth) (b : TypedBot) :
  bot self = Some b ->
  PyStr.truthy (cookies request !! "session") = false ->
  _wrap_route func true scope sg sc request self
  = {| outcome := func (set_ctx_user request None); self' := self;
       trace := [EvHandler None] |}.
Proof.
  intros Hbot Hnocookie.
  rewrite (wrap_route_cookie_branch _ _ _ _ _ _ _ b Hbot) by apply orb_true_r.
  assert (Hlookup : cookie_user request self
                    = {| outcome := Ok None; self' := self; trace := [] |}).
  { unfold cookie_user. now rewrite Hnocookie. }
  rewrite (bind_run _ _ _ _ _ _ Hlookup), call_route_normal_run. reflexivity.
Qed.

Lemma wrap_route_cookie_raise
    (func : Route) (force : bool) (scope : list string)
    (sg : option (Request -> string)) (sc : option (Request -> string -> bool))
    (request : Request) (self : DiscordOAuth) (b : TypedBot) (cookie : string)
    (e : exn) (t : list event) :
  bot self = Some b ->
  cookies request !! "session" = Some cookie ->
  cookie <> "" ->
  get_user_cookie cookie self = {| outcome := Raise e; self' := self; trace := t |} ->
  _wrap_route func force scope sg sc request self
  = {| outcome := Raise e; self' := self; trace := t |}.
Proof.
  intros Hbot Hcookie Hne Hraise.
  assert (Htruthy : PyStr.truthy (cookies request !! "session") = true).
  { rewrite Hcookie. destruct cookie; [congruence | reflexivity]. }
  rewrite (wrap_route_cookie_branch _ _ _ _ _ _ _ b Hbot) by now rewrite Htruthy.
  assert (Hlookup : cookie_user request self
                    = {| outcome := Raise e; self' := self; trace := t |}).
  { unfold cookie_user. rewrite Htruthy, Hcookie. exact Hraise. }
  now rewrite (bind_run _ _ _ _ _ _ Hlookup).
Qed.

(** X11. A session cookie that decrypts but cannot be read is not
    treated as a missing login: when the decrypted text is not JSON the
    request fails with [ValueError], when the decoded object has no
    [id] it fails with [KeyError], and when the bot's [fetch_user] raises
    the request fails with that exception; in each case the wrapped
    route is not called and no request goes to Discord. *)
Theorem unreadable_cookie_raises
    (func : Route) (force : bool) (scope : list string)
    (sg : option (Request -> string)) (sc : option (Request -> string -> bool))
    (request : Request) (self : DiscordOAuth) (b : TypedBot) (cookie plain : string) :
  bot self = Some b ->
  cookies request !! "session" = Some cookie ->
  cookie <> "" ->
  reprypt_decrypt cookie (secret_key self) convert_b64 = Some plain ->
  let r := _wrap_route func force scope sg sc request self in
  (loads plain = None ->
   r = {| outcome := Raise ValueError; self' := self; trace := [] |})
  /\ (forall items,
        loads plain = Some (JObj items) -> assoc "id" items = None ->
        r = {| outcome := Raise (KeyError "id"); self' := self; trace := [] |})
  /\ (forall d v n e,
        loads plain = Some d -> getitem d "id" = Ok v -> py_int v = Ok n ->
        fetch_user b n = Raise e -> e <> DecryptError ->
        r = {| outcome := Raise e; self' := self; trace := [EvFetchUser n] |}).
Proof.
  intros Hbot Hcookie Hne Hdec r. subst r.
  split; [| split].
  - intros Hloads. apply (wrap_route_cookie_raise _ _ _ _ _ _ _ b cookie); try assumption.
    now rewrite get_user_cookie_run, Hbot, Hdec, Hloads.
  - intros items Hloads Hid.
    apply (wrap_route_cookie_raise _ _ _ _ _ _ _ b cookie); try assumption.
    rewrite get_user_cookie_run, Hbot, Hdec, Hloads. cbn [getitem]. now rewrite Hid.
  - intros d v n e Hloads Hitem Hint Hfetch Hother.
    apply (wrap_route_cookie_raise _ _ _ _ _ _ _ b cookie); try assumption.
    rewrite get_user_cookie_run, Hbot, Hdec, Hloads, Hitem, Hint, Hfetch.
    destruct e; try reflexivity. contradiction.
Qed.

(** X12. Before the start-up task has set the bot, [get_user_cookie]
    raises [AttributeError] without decrypting or calling anything; and
    [get_userdata] sends its request to Discord first: when the request
    is answered with an error that error is raised, and when it is
    answered with a body [AttributeError] is raised before the body is
    read, whatever the body is. *)
Theorem methods_before_startup (cookie : string) (access_token : json)
    (self : DiscordOAuth) :
  bot self = None ->
  get_user_cookie cookie self
  = {| outcome := Raise AttributeError; self' := self; trace := [] |}
  /\ (forall body,
        users_me_get access_token = Ok body ->
        get_userdata access_token self
        = {| outcome := Raise AttributeError; self' := with_session self;
             trace := [EvUsersMe access_token] |})
  /\ (forall e,
        users_me_get access_token = Raise e ->
        get_userdata access_token self
        = {| outcome := Raise e; self' := with_session self;
             trace := [EvUsersMe access_token] |}).
Proof.
  intros Hbot. split; [| split].
  - now rewrite get_user_cookie_run, Hbot.
  - intros body Hget. unfold get_userdata, session.
    rewrite bind_modify, bind_emit, Hget, bind_lift_ok, bind_get_self, bot_with_session, Hbot.
    reflexivity.
  - intros e Hget. unfold get_userdata, session.
    rewrite bind_modify, bind_emit, Hget, bind_lift_raise. reflexivity.
Qed.

(** *** The callback phase, continued *)

(** The callback phase once the state is accepted, run to its end. *)
Lemma wrap_route_callback_run
    (func : Route) (scope : list string)
    (sg : option (Request -> string)) (sc : option (Request -> string -> bool))
    (request : Request) (self : DiscordOAuth) (b : TypedBot) :
  bot self = Some b ->
  PyStr.truthy (cookies request !! "session") = false ->
  args request ≠ ∅ ->
  state_accepted sg sc request ->
  let data := token_data self (args request !! "code") (make_url request (path request)) in
  _wrap_route func false scope sg sc request self
  = match token data with
    | Raise e => {| outcome := Raise (except_client_response_error e);
                    self' := with_session self; trace := [EvToken data] |}
    | Ok tok =>
        match getitem tok "access_token" with
        | Raise e => {| outcome := Raise (except_client_response_error e);
                        self' := with_session self; trace := [EvToken data] |}
        | Ok access_token =>
            match users_me access_token with
            | Raise e => {| outcome := Raise (except_client_response_error e);
                            self' := with_session self;
                            trace := [EvToken data; EvUsersMe access_token] |}
            | Ok user =>
                {| outcome :=
                     match func (set_ctx_user request (Some user)) with
                     | Ok response =>
                         Ok (set_cookie "session"
                               (encrypt self (CookieData (id user) (name user))) response)
                     | Raise e => Raise e
                     end;
                   self' := with_session self;
                   trace := [EvToken data; EvUsersMe access_token; EvHandler (Some user)] |}
            end
        end
    end.
Proof.
  intros Hbot Hnocookie Hargs Hstate data.
  rewrite (wrap_route_callback_branch _ _ _ _ _ _ b Hbot Hnocookie Hargs).
  rewrite (bind_run _ _ _ _ _ _ (check_state_accepted _ _ _ self Hstate)).
  cbv beta iota.
  pose proof (fetch_user_run (args request !! "code") (make_url request (path request))
                self b Hbot) as Hfetch.
  cbv zeta in Hfetch. fold data in Hfetch. rewrite with_session_idem in Hfetch.
  destruct (token data) as [tok | e].
  2: { destruct e;
         (erewrite bind_run; [| erewrite try_except_run; [| exact Hfetch]; reflexivity]);
         reflexivity. }
  destruct (getitem tok "access_token") as [access_token | e].
  2: { destruct e;
         (erewrite bind_run; [| erewrite try_except_run; [| exact Hfetch]; reflexivity]);
         reflexivity. }
  destruct (users_me access_token) as [user | e].
  2: { destruct e;
         (erewrite bind_run; [| erewrite try_except_run; [| exact Hfetch]; reflexivity]);
         reflexivity. }
  erewrite bind_run; [| erewrite try_except_run; [| exact Hfetch]; reflexivity].
  cbv beta iota.
  rewrite (call_route_write_run _ _ user) by reflexivity.
  rewrite encrypt_with_session.
  destruct (func (set_ctx_user request (Some user))); reflexivity.
Qed.

(** X13. Any query parameter starts the exchange: for a request without
    session cookie on an unforced route whose state is accepted, the
    first call is the POST to the token endpoint with whatever the
    [code] parameter is, [None] when the request has none, and with the
    request's own URL as [redirect_uri]. *)
Theorem any_query_parameter_starts_exchange
    (func : Route) (scope : list string)
    (sg : option (Request -> string)) (sc : option (Request -> string -> bool))
    (request : Request) (self : DiscordOAuth) (b : TypedBot) :
  bot self = Some b ->
  PyStr.truthy (cookies request !! "session") = false ->
  args request ≠ ∅ ->
  state_accepted sg sc request ->
  let data := token_data self (args request !! "code") (make_url request (path request)) in
  head (trace (_wrap_route func false scope sg sc request self)) = Some (EvToken data)
  /\ List.In ("code", args request !! "code") data
  /\ List.In ("redirect_uri", Some (make_url request (path request))) data.
Proof.
  intros Hbot Hnocookie Hargs Hstate data. split.
  - pose proof (wrap_route_callback_run func scope sg sc request self b
                  Hbot Hnocookie Hargs Hstate) as Hrun.
    cbv zeta in Hrun. fold data in Hrun. rewrite Hrun.
    destruct (token data) as [tok | e]; [| reflexivity].
    destruct (getitem tok "access_token") as [access_token | e]; [| reflexivity].
    destruct (users_me access_token); reflexivity.
  - split; [do 3 right; left; reflexivity | do 4 right; left; reflexivity].
Qed.

(** X14. Only a [ClientResponseError] is turned into a 400: any other
    exception of the token request, of the lookup of [access_token] in
    its answer, or of the user request leaves the guard as it is; the
    wrapped route is not called. *)
Theorem exchange_errors_propagate
    (func : Route) (scope : list string)
    (sg : option (Request -> string)) (sc : option (Request -> string -> bool))
    (request : Request) (self : DiscordOAuth) (b : TypedBot) (e : exn) :
  bot self = Some b ->
  PyStr.truthy (cookies request !! "session") = false ->
  args request ≠ ∅ ->
  state_accepted sg sc request ->
  (forall detail, e <> ClientResponseError detail) ->
  let r := _wrap_route func false scope sg sc request self in
  let data := token_data self (args request !! "code") (make_url request (path request)) in
  (token data = Raise e ->
   r = {| outcome := Raise e; self' := with_session self; trace := [EvToken data] |})
  /\ (forall tok,
        token data = Ok tok -> getitem tok "access_token" = Raise e ->
        r = {| outcome := Raise e; self' := with_session self; trace := [EvToken data] |})
  /\ (forall tok access_token,
        token data = Ok tok -> getitem tok "access_token" = Ok access_token ->
        users_me access_token = Raise e ->
        r = {| outcome := Raise e; self' := with_session self;
               trace := [EvToken data; EvUsersMe access_token] |}).
Proof.
  intros Hbot Hnocookie Hargs Hstate Hother r data. subst r.
  pose proof (wrap_route_callback_run func scope sg sc request self b
                Hbot Hnocookie Hargs Hstate) as Hrun.
  cbv zeta in Hrun. fold data in Hrun. rewrite Hrun.
  assert (Hsame : except_client_response_error e = e).
  { destruct e; try reflexivity. now destruct (Hother detail). }
  split; [| split].
  - intros ->. now rewrite Hsame.
  - intros tok -> ->. now rewrite Hsame.
  - intros tok access_token -> -> ->. now rewrite Hsame.
Qed.

(** X15. A token answer without [access_token] is not answered with a
    400: the guard raises [KeyError], the user request is not sent and
    the wrapped route is not called. *)
Theorem token_without_access_token
    (func : Route) (scope : list string)
    (sg : option (Request -> string)) (sc : option (Request -> string -> bool))
    (request : Request) (self : DiscordOAuth) (b : TypedBot)
    (items : list (string * json)) :
  bot self = Some b ->
  PyStr.truthy (cookies request !! "session") = false ->
  args request ≠ ∅ ->
  state_accepted sg sc request ->
  token (token_data self (args request !! "code") (make_url request (path request)))
  = Ok (JObj items) ->
  assoc "access_token" items = None ->
  _wrap_route func false scope sg sc request self
  = {| outcome := Raise (KeyError "access_token"); self' := with_session self;
       trace := [EvToken (token_data self (args request !! "code")
                            (make_url request (path request)))] |}
  /\ status_of (KeyError "access_token") = None.
Proof.
  intros Hbot Hnocookie Hargs Hstate Htok Hmissing. split; [| reflexivity].
  pose proof (wrap_route_callback_run func scope sg sc request self b
                Hbot Hnocookie Hargs Hstate) as Hrun.
  cbv zeta in Hrun. rewrite Hrun, Htok. cbn [getitem]. now rewrite Hmissing.
Qed.

(** X16. In write-cookie mode the answer is the wrapped route's own
    response with one cookie changed: status, location, body and every
    cookie but [session] are the route's, and [session] is the
    encrypted payload also when the route had set a [session] cookie
    itself. *)
Theorem write_cookie_keeps_response
    (func : Route) (scope : list string)
    (sg : option (Request -> string)) (sc : option (Request -> string -> bool))
    (request : Request) (self : DiscordOAuth) (b : TypedBot)
    (tok access_token : json) (user : User) (response : HTTPResponse) :
  bot self = Some b ->
  PyStr.truthy (cookies request !! "session") = false ->
  args request ≠ ∅ ->
  state_accepted sg sc request ->
  token (token_data self (args request !! "code") (make_url request (path request)))
  = Ok tok ->
  getitem tok "access_token" = Ok access_token ->
  users_me access_token = Ok user ->
  func (set_ctx_user request (Some user)) = Ok response ->
  exists answer,
    outcome (_wrap_route func false scope sg sc request self) = Ok answer
    /\ status answer = status response
    /\ location answer = location response
    /\ body answer = body response
    /\ resp_cookies answer !! "session"
       = Some (encrypt self (CookieData (id user) (name user)))
    /\ forall k, k <> "session" -> resp_cookies answer !! k = resp_cookies response !! k.
Proof.
  intros Hbot Hnocookie Hargs Hstate Htok Hitem Huser Hfunc.
  pose proof (wrap_route_callback_run func scope sg sc request self b
                Hbot Hnocookie Hargs Hstate) as Hrun.
  cbv zeta in Hrun. rewrite Hrun, Htok, Hitem, Huser, Hfunc. cbn [outcome].
  eexists. split; [reflexivity |].
  unfold set_cookie. cbn [status location body resp_cookies].
  repeat split.
  - apply lookup_insert_eq.
  - intros k Hk. now rewrite lookup_insert_ne by congruence.
Qed.

(** X17. A state generator without a state checker: when
    [require_login] is given the default generator and anything but
    ["default"] as checker ([None], or a callable, which it drops), every
    callback request fails with [TypeError], which is no Sanic
    exception; nothing is called. *)
Theorem checker_dropped_type_error
    (func : Route) (scope : list string)
    (sc_arg : StateArg (Request -> string -> bool))
    (request : Request) (deco self : DiscordOAuth) (b : TypedBot) :
  bot self = Some b ->
  PyStr.truthy (cookies request !! "session") = false ->
  args request ≠ ∅ ->
  sc_arg <> default_arg ->
  require_login deco false scope default_arg sc_arg func request self
  = {| outcome := Raise TypeError; self' := self; trace := [] |}
  /\ status_of TypeError = None.
Proof.
  intros Hbot Hnocookie Hargs Hnot. split; [| reflexivity].
  unfold require_login. cbv zeta.
  assert (Hnone : resolve_arg (state_checker deco) sc_arg = None).
  { destruct sc_arg; [contradiction | reflexivity | reflexivity]. }
  rewrite Hnone. cbn [resolve_arg].
  rewrite (wrap_route_callback_branch _ _ _ _ _ _ b Hbot Hnocookie Hargs).
  assert (Hcheck : check_state (Some (state_generator deco)) None request self
                   = {| outcome := Raise TypeError; self' := self; trace := [] |})
    by reflexivity.
  now rewrite (bind_run _ _ _ _ _ _ Hcheck).
Qed.

(** X18. The two phases agree on [redirect_uri]: when the login request
    and the callback request have the same scheme, host and path, the
    [redirect_uri] posted to the token endpoint is the one that was sent
    to the authorize endpoint. *)
Theorem redirect_uri_agreement
    (func : Route) (scope : list string)
    (sg : option (Request -> string)) (sc : option (Request -> string -> bool))
    (login callback : Request) (self : DiscordOAuth) (b : TypedBot) :
  bot self = Some b ->
  PyStr.truthy (cookies login !! "session") = false ->
  args login = ∅ ->
  get_redirect_oauth self (make_url login (path login)) = None ->
  PyStr.truthy (cookies callback !! "session") = false ->
  args callback ≠ ∅ ->
  state_accepted sg sc callback ->
  scheme login = scheme callback -> host login = host callback ->
  path login = path callback ->
  let first := _wrap_route func false scope sg sc login self in
  let second := _wrap_route func false scope sg sc callback (self' first) in
  exists params data,
    trace first = [EvAuthorize params]
    /\ head (trace second) = Some (EvToken data)
    /\ List.In ("redirect_uri", make_url login (path login)) params
    /\ List.In ("redirect_uri", Some (make_url login (path login))) data.
Proof.
  intros Hbot Hnocookie Hargs Hmiss Hnocookie2 Hargs2 Hstate Hscheme Hhost Hpath first second.
  subst second first.
  pose proof (wrap_route_login_branch func scope sg sc login self b Hbot Hnocookie Hargs)
    as Hlogin.
  rewrite Hlogin.
  rewrite (bind_run _ _ _ _ _ _ (get_url_miss_run _ scope _ self Hmiss)).
  assert (Hbot' : bot (with_session self) = Some b) by now rewrite bot_with_session.
  pose proof (wrap_route_callback_run func scope sg sc callback (with_session self) b
                Hbot' Hnocookie2 Hargs2 Hstate) as Hrun.
  cbv zeta in Hrun.
  assert (Hurl : make_url callback (path callback) = make_url login (path login)).
  { unfold make_url, make_base_url. now rewrite Hscheme, Hhost, Hpath. }
  rewrite Hurl in Hrun.
  set (params := authorize_params self (make_url login (path login)) scope) in *.
  set (data := token_data (with_session self) (args callback !! "code")
                 (make_url login (path login))) in *.
  exists params, data.
  assert (Hafter : forall (o : result string),
             self' (match o with
                    | Ok a => {| outcome := outcome (ret (redirect a) (with_session self));
                                 self' := self' (ret (redirect a) (with_session self));
                                 trace := [EvAuthorize params]
                                          ++ trace (ret (redirect a) (with_session self)) |}
                    | Raise e => {| outcome := Raise e; self' := with_session self;
                                    trace := [EvAuthorize params] |}
                    end) = with_session self
             /\ trace (match o with
                    | Ok a => {| outcome := outcome (ret (redirect a) (with_session self));
                                 self' := self' (ret (redirect a) (with_session self));
                                 trace := [EvAuthorize params]
                                          ++ trace (ret (redirect a) (with_session self)) |}
                    | Raise e => {| outcome := Raise e; self' := with_session self;
                                    trace := [EvAuthorize params] |}
                    end) = [EvAuthorize params]).
  { intros [a | e]; split; reflexivity. }
  destruct (Hafter (match authorize params with
                    | Ok url => Ok (quote_query url +:+ state_suffix
                                     match sg with
                                     | Some generator => Some (generator login)
                                     | None => None
                                     end)
                    | Raise e => Raise e
                    end)) as [Hself Htrace].
  rewrite Hself, Htrace, Hrun.
  split; [reflexivity |]. split.
  - destruct (token data) as [tok | e]; [| reflexivity].
    destruct (getitem tok "access_token") as [access_token | e]; [| reflexivity].
    destruct (users_me access_token); reflexivity.
  - split; [do 3 right; left; reflexivity | do 4 right; left; reflexivity].
Qed.

(** *** The rewriting of the authorize URL *)

(** The rewriting of a URL that has no question mark and ends with [c]. *)
Lemma quote_query_snoc (a : string) (c : ascii) :
  PyStr.find "?" (a +:+ String c "") = -1 ->
  quote_query (a +:+ String c "")
  = a +:+ (if Ascii.eqb c "/" then "%2F" else String c "").
Proof.
  intros Hnone. unfold quote_query, PyStr.slice_to, PyStr.slice_from.
  rewrite Hnone, bound_minus_one, take_app, drop_app.
  cbn [PyStr.replace]. now destruct (Ascii.eqb c "/").
Qed.

(** X19. A URL without question mark: [find] answers [-1], so the URL
    is cut before its last character; everything before it is kept, a
    final slash is encoded and any other final character is kept: a URL
    that ends with a slash is changed, every other one is returned as it
    is. *)
Theorem quote_query_without_question_mark (a : string) :
  PyStr.find "?" a = -1 ->
  quote_query (a +:+ "/") = a +:+ "%2F"
  /\ (forall c : ascii, c <> "/"%char -> c <> "?"%char ->
      quote_query (a +:+ String c "") = a +:+ String c "").
Proof.
  intros Ha. split.
  - rewrite quote_query_snoc; [reflexivity |]. now apply find_none_app.
  - intros c Hslash Hmark. rewrite quote_query_snoc.
    + apply Ascii.eqb_neq in Hslash. now rewrite Hslash.
    + apply find_none_app. split; [assumption |].
      apply find_none_cons. split; [now apply Ascii.eqb_neq | reflexivity].
Qed.

(** X20. After the rewriting no slash is left behind the first question
    mark, and the text up to that question mark is untouched; a URL
    whose query has no slash is returned as it is. *)
Theorem quote_query_leaves_no_slash (base query : string) :
  PyStr.find "?" base = -1 ->
  exists rest,
    quote_query (base +:+ String "?" query) = base +:+ String "?" rest
    /\ PyStr.find "/" rest = -1
    /\ (PyStr.find "/" query = -1 -> rest = query).
Proof.
  intros Hbase. exists (PyStr.replace "/" "%2F" query).
  split; [now apply quote_query_split |].
  split; [apply find_replace_slash | apply replace_none].
Qed.

(** X21. The rewriting is idempotent: a URL that has been rewritten is
    not changed by rewriting it again. *)
Theorem quote_query_idempotent (url : string) :
  quote_query (quote_query url) = quote_query url.
Proof.
  destruct (find_split "?" url) as [Hnone | (base & query & -> & Hbase)].
  - destruct (snoc_split url) as [-> | (a & c & ->)]; [reflexivity |].
    rewrite (quote_query_snoc _ _ Hnone).
    destruct (Ascii.eqb c "/") eqn:E.
    + apply find_none_app in Hnone as [Ha _].
      change (a +:+ "%2F") with (a +:+ ("%2" +:+ String "F" "")).
      rewrite <- str_app_assoc.
      rewrite quote_query_snoc; [reflexivity |].
      rewrite str_app_assoc. now apply find_none_app.
    + rewrite (quote_query_snoc _ _ Hnone). now rewrite E.
  - rewrite (quote_query_split _ _ Hbase), (quote_query_split _ _ Hbase).
    now rewrite (replace_none _ _ _ (find_replace_slash query)).
Qed.

(** *** The default state through both phases *)

Section MoreRoundTrips.
Context {cipher_law : RepryptRoundTrip}.

(** X22. With the defaults of [require_login], a callback whose [state]
    is the one the login phase generated is let through to the token
    exchange when the host followed by the address of the two requests
    is the same text, and is answered with a 403 before any call when it
    is not. *)
Theorem default_state_flow
    (func : Route) (scope : list string)
    (login callback : Request) (deco self : DiscordOAuth) (b : TypedBot) :
  bot self = Some b ->
  PyStr.truthy (cookies callback !! "session") = false ->
  args callback !! "state" = Some (state_generator deco login) ->
  let r := require_login deco false scope default_arg default_arg func callback self in
  (host login +:+ ip login = host callback +:+ ip callback ->
   head (trace r)
   = Some (EvToken (token_data self (args callback !! "code")
                      (make_url callback (path callback)))))
  /\ (host login +:+ ip login <> host callback +:+ ip callback ->
      r = {| outcome := Raise (SanicException msg_bad_state 403); self' := self;
             trace := [] |}).
Proof.
  intros Hbot Hnocookie Hstate r. subst r.
  assert (Hargs : args callback ≠ ∅).
  { intros Hempty. rewrite Hempty, lookup_empty in Hstate. discriminate. }
  assert (Hcheck : state_checker deco callback (default "" (args callback !! "state"))
                   = String.eqb (host callback +:+ ip callback) (host login +:+ ip login)).
  { rewrite Hstate.
    change (default "" (Some (state_generator deco login))) with (state_generator deco login).
    unfold state_checker, state_generator.
    now rewrite decrypt_encrypt. }
  unfold require_login. cbv zeta. cbn [resolve_arg]. split.
  - intros Hsame.
    assert (Hok : state_accepted (Some (state_generator deco)) (Some (state_checker deco))
                    callback).
    { cbn [state_accepted]. rewrite Hcheck, Hsame. apply String.eqb_refl. }
    pose proof (wrap_route_callback_run func scope _ _ callback self b
                  Hbot Hnocookie Hargs Hok) as Hrun.
    cbv zeta in Hrun. rewrite Hrun.
    destruct (token _) as [tok | e]; [| reflexivity].
    destruct (getitem tok "access_token") as [access_token | e]; [| reflexivity].
    destruct (users_me access_token); reflexivity.
  - intros Hdiffer.
    rewrite (wrap_route_callback_branch _ _ _ _ _ _ b Hbot Hnocookie Hargs).
    assert (Hreject : check_state (Some (state_generator deco)) (Some (state_checker deco))
                        callback self
                      = {| outcome := Raise (SanicException msg_bad_state 403);
                           self' := self; trace := [] |}).
    { unfold check_state. rewrite Hcheck.
      assert (Hne : String.eqb (host callback +:+ ip callback) (host login +:+ ip login)
                    = false) by (apply String.eqb_neq; congruence).
      now rewrite Hne. }
    now rewrite (bind_run _ _ _ _ _ _ Hreject).
Qed.

End MoreRoundTrips.

End More.

Section Runs.
#[local] Existing Instances Ref.cipher Ref.codec Ref.discord Ref.sanic.

Example ref_first_visit :
  outcome (require_login Ref.started false ["identify"] default_arg default_arg Ref.hello
             (Ref.visit ∅ ∅) Ref.started)
  = Ok (redirect ("https://discord.com/oauth2/authorize?client_id=1234"
                  +:+ "&redirect_uri=https:%2F%2Frt.example%2Fdashboard"
                  +:+ "&state=xkrt.example203.0.113.7")).
Proof. vm_compute. reflexivity. Qed.

(** The reference cipher and codec satisfy the round-trip laws. *)
Lemma ref_strip_prefix_app (key text : string) :
  Ref.strip_prefix key (key +:+ text) = Some text.
Proof.
  induction key as [|a key IH]; simpl; [reflexivity |].
  now rewrite Ascii.eqb_refl.
Qed.

Lemma ref_cipher_round_trip : RepryptRoundTrip.
Proof.
  intros text key conv. simpl. rewrite Ascii.eqb_refl. apply ref_strip_prefix_app.
Qed.

Lemma ref_load_dump_pos (p : positive) (rest : string) :
  Ref.load_pos (Ref.dump_pos p +:+ rest) = Some (p, rest).
Proof. induction p as [p IH | p IH |]; simpl; [now rewrite IH | now rewrite IH | reflexivity]. Qed.

Lemma ref_load_dump_int (z : Z) (rest : string) :
  Ref.load_int (Ref.dump_int z +:+ rest) = Some (z, rest).
Proof. destruct z; simpl; [reflexivity | | ]; now rewrite ref_load_dump_pos. Qed.

Lemma ref_codec_round_trip : UjsonRoundTrip.
Proof. intros i n. simpl. now rewrite ref_load_dump_int. Qed.

Lemma service_unavailable_precedence_run :
  _wrap_route Ref.hello false ["identify"] None None (Ref.visit ∅ ∅) Ref.starting
  = {| outcome := Raise (ServiceUnavailable msg_not_ready); self' := Ref.starting; trace := [] |}
  /\ status_of (ServiceUnavailable msg_not_ready) = Some 503.
Proof.
  apply (service_unavailable_precedence Ref.hello false ["identify"] None None
           (Ref.visit ∅ ∅) Ref.starting).
  reflexivity.
Defined.

Lemma authorize_url_construction_run :
  outcome (get_url "https://rt.example/dashboard" ["identify"] (Some "s1") Ref.started)
  = Ok ("https://discord.com/oauth2/authorize"
        +:+ "?client_id=1234&redirect_uri=https:%2F%2Frt.example%2Fdashboard"
        +:+ "&state=s1")
  /\ PyStr.find "/" "client_id=1234&redirect_uri=https:%2F%2Frt.example%2Fdashboard" = -1.
Proof.
  pose proof (authorize_url_construction "https://rt.example/dashboard" ["identify"]
                (Some "s1") Ref.started "https://discord.com/oauth2/authorize"
                "client_id=1234&redirect_uri=https://rt.example/dashboard") as Hurl.
  destruct Hurl as (Hout & Hnone & _ & _);
    [reflexivity | vm_compute; reflexivity | vm_compute; reflexivity |].
  split; [exact Hout | exact Hnone].
Defined.

Lemma state_binding_run :
  state_checker Ref.started (Ref.visit ∅ ∅) (state_generator Ref.started (Ref.visit ∅ ∅)) = true
  /\ state_checker Ref.started (Ref.visit ∅ ∅) (state_generator Ref.started Ref.elsewhere) = false
  /\ state_checker Ref.started (Ref.visit ∅ ∅) "garbage" = false.
Proof.
  destruct (state_binding (cipher_law := ref_cipher_round_trip) Ref.started
              (Ref.visit ∅ ∅) Ref.elsewhere (Ref.visit ∅ ∅) "garbage")
    as (Hsame & Hother & Hfail).
  split; [exact Hsame |]. split.
  - apply Hother. vm_compute. discriminate.
  - apply Hfail. reflexivity.
Defined.

Lemma session_cookie_agreement_run :
  let cookie := encrypt Ref.started (CookieData 42 "alice") in
  trace (get_user_cookie cookie Ref.started) = [EvFetchUser 42]
  /\ outcome (get_user_cookie cookie Ref.started) = Ok (Some Ref.alice).
Proof.
  destruct (session_cookie_agreement (cipher_law := ref_cipher_round_trip)
              (codec_law := ref_codec_round_trip)
              Ref.hello Ref.callback_no_state Ref.alice Ref.started Ref.the_bot
              {| status := 200; location := None; body := "hello alice"; resp_cookies := ∅ |}
              eq_refl eq_refl)
    as (_ & _ & Htrace & Hfound).
  split; [exact Htrace |]. apply Hfound. reflexivity.
Defined.

Lemma corrupted_cookie_is_anonymous_run :
  _wrap_route Ref.hello false ["identify"] None None Ref.forged_cookie Ref.started
  = {| outcome := Ref.hello (set_ctx_user Ref.forged_cookie None); self' := Ref.started;
       trace := [EvHandler None] |}.
Proof.
  apply (corrupted_cookie_is_anonymous Ref.hello false ["identify"] None None
           Ref.forged_cookie Ref.started Ref.the_bot "garbage").
  - reflexivity.
  - vm_compute. reflexivity.
  - left. discriminate.
  - reflexivity.
Defined.



Lemma callback_success_path_run :
  let sg := Some (state_generator Ref.started) in
  let sc := Some (state_checker Ref.started) in
  let good := _wrap_route Ref.hello false ["identify"] sg sc Ref.callback_good_state Ref.started in
  let bad := _wrap_route Ref.hello false ["identify"] None None Ref.callback_bad_code Ref.started in
  (trace good
   = [EvToken (token_data Ref.started (Some "ABC") "https://rt.example/dashboard");
      EvUsersMe (JStr "tok"); EvHandler (Some Ref.alice)]
   /\ outcome good
      = Ok (set_cookie "session" "bk+01010;alice"
              {| status := 200; location := None; body := "hello alice"; resp_cookies := ∅ |})
   /\ exists answer,
        outcome good = Ok answer
        /\ resp_cookies answer !! "session" = Some "bk+01010;alice"
        /\ body answer = "hello alice")
  /\ (outcome bad
      = Raise (SanicException (msg_fetch_failed +:+ "400, message='Bad Request'") 400)
      /\ trace bad = [EvToken (token_data Ref.started (Some "XYZ") "https://rt.example/dashboard")]).
Proof.
  split.
  - destruct (callback_success_path Ref.hello ["identify"]
                (Some (state_generator Ref.started)) (Some (state_checker Ref.started))
                Ref.callback_good_state Ref.started Ref.the_bot "ABC"
                eq_refl eq_refl ltac:(vm_compute; reflexivity) ltac:(vm_compute; reflexivity))
      as (Hok & _ & _).
    destruct (Hok (JObj [("access_token", JStr "tok"); ("token_type", JStr "Bearer")])
                (JStr "tok") Ref.alice eq_refl eq_refl eq_refl)
      as (Htrace & Hout & Hcookie).
    split; [exact Htrace |]. split; [exact Hout |].
    destruct (Hcookie {| status := 200; location := None; body := "hello alice";
                         resp_cookies := ∅ |} eq_refl)
      as (answer & Hanswer & Hsession & _ & Hbody & _).
    exists answer. split; [exact Hanswer |]. split; [exact Hsession | exact Hbody].
  - destruct (callback_success_path Ref.hello ["identify"] None None
                Ref.callback_bad_code Ref.started Ref.the_bot "XYZ"
                eq_refl eq_refl ltac:(vm_compute; reflexivity) I)
      as (_ & Hfail & _).
    destruct (Hfail "400, message='Bad Request'" eq_refl) as (Hout & _ & Htrace).
    split; assumption.
Defined.

Lemma callback_state_enforcement_run :
  _wrap_route Ref.hello false ["identify"] (Some (state_generator Ref.started))
    (Some (state_checker Ref.started)) Ref.callback_bad_state Ref.started
  = {| outcome := Raise (SanicException msg_bad_state 403); self' := Ref.started; trace := [] |}
  /\ _wrap_route Ref.hello false ["identify"] None (Some (state_checker Ref.started))
       Ref.callback_bad_state Ref.started
     = _wrap_route Ref.hello false ["identify"] None None Ref.callback_bad_state Ref.started.
Proof.
  destruct (callback_state_enforcement Ref.hello ["identify"]
              (state_generator Ref.started) (state_checker Ref.started)
              (Some (state_checker Ref.started)) Ref.callback_bad_state Ref.started Ref.the_bot
              eq_refl eq_refl)
    as (Hreject & Hsame).
  - apply (bool_decide_eq_true_1 _). vm_compute. reflexivity.
  - split; [| exact Hsame]. apply Hreject. vm_compute. reflexivity.
Defined.

(** C3, as the claim states it, fails: with [state_generator=None] and
    the default [state_checker], a callback without [state] is one the
    checker rejects, yet the guard raises no 403: it exchanges the code,
    fetches the user, calls the route and writes the session cookie. *)
Lemma state_checker_alone_is_not_enforced :
  let guarded := require_login Ref.started false ["identify"] none_arg default_arg Ref.hello in
  let r := guarded Ref.callback_no_state Ref.started in
  resolve_arg (state_checker Ref.started) default_arg = Some (state_checker Ref.started)
  /\ state_checker Ref.started Ref.callback_no_state
       (default "" (args Ref.callback_no_state !! "state")) = false
  /\ outcome r
     = Ok (set_cookie "session" "bk+01010;alice"
             {| status := 200; location := None; body := "hello alice"; resp_cookies := ∅ |})
  /\ trace r
     = [EvToken (token_data Ref.started (Some "ABC") "https://rt.example/dashboard");
        EvUsersMe (JStr "tok"); EvHandler (Some Ref.alice)].
Proof. repeat split; vm_compute; reflexivity. Qed.

(** C1 on a concrete object: the second of two identical [get_url] calls
    asks Discord again. *)
Example get_url_twice_run :
  let r1 := get_url "https://rt.example/dashboard" ["identify"] None Ref.started in
  let r2 := get_url "https://rt.example/dashboard" ["identify"] None (self' r1) in
  List.length (provider_calls (trace r1 ++ trace r2)) = 2%nat
  /\ get_redirect_oauth (self' r1) "https://rt.example/dashboard" = None.
Proof. split; vm_compute; reflexivity. Qed.

(** C2 on a concrete route: a caller's own generator leaves no [state]
    in the redirect, and a caller's own checker that rejects everything
    does not stop a callback. *)
Example require_login_callables_run :
  let guarded := require_login Ref.started false ["identify"]
                   (callable_arg (fun _ => "mine")) (callable_arg (fun _ _ => false)) Ref.hello in
  outcome (guarded (Ref.visit ∅ ∅) Ref.started)
  = Ok (redirect ("https://discord.com/oauth2/authorize?client_id=1234"
                  +:+ "&redirect_uri=https:%2F%2Frt.example%2Fdashboard"))
  /\ trace (guarded Ref.callback_no_state Ref.started)
     = [EvToken (token_data Ref.started (Some "ABC") "https://rt.example/dashboard");
        EvUsersMe (JStr "tok"); EvHandler (Some Ref.alice)].
Proof. split; vm_compute; reflexivity. Qed.


(** *** Further runs *)

Lemma reset_oauth_lookup_run :
  let after := self' (reset_oauth "https://rt.example/settings" Ref.cached) in
  get_redirect_oauth after "https://rt.example/settings" = None
  /\ get_redirect_oauth after Ref.dashboard_url = Some Ref.cached_url.
Proof.
  destruct (reset_oauth_lookup "https://rt.example/settings" Ref.dashboard_url Ref.cached)
    as [Hreset Hother].
  split; [exact Hreset |].
  rewrite Hother by (vm_compute; discriminate). vm_compute. reflexivity.
Defined.

Lemma get_url_cached_run :
  get_url Ref.dashboard_url ["identify"] (Some "s1") Ref.cached
  = {| outcome := Ok (Ref.cached_url +:+ "&state=s1"); self' := Ref.cached; trace := [] |}.
Proof.
  apply (get_url_cached Ref.dashboard_url ["identify"] (Some "s1") Ref.cached Ref.cached_url).
  vm_compute. reflexivity.
Defined.

Lemma wrap_route_frame_run :
  self' (_wrap_route Ref.hello false ["identify"] None None Ref.callback_no_state Ref.opened)
  = Ref.opened.
Proof.
  destruct (wrap_route_frame Ref.hello false ["identify"] None None
              Ref.callback_no_state Ref.opened) as [_ Hopen].
  apply Hopen. reflexivity.
Defined.

Lemma call_sequence_invariants_run :
  let calls := [call_get_token (Some "ABC") Ref.dashboard_url;
                call_reset_oauth Ref.dashboard_url;
                call_request Ref.hello false ["identify"] None None Ref.callback_no_state;
                call_reset_all_oauth] in
  let after := after_all calls Ref.opened in
  _session after = true /\ is_Some (bot after) /\ secret_key after = "k".
Proof.
  destruct (call_sequence_invariants
              [call_get_token (Some "ABC") Ref.dashboard_url;
               call_reset_oauth Ref.dashboard_url;
               call_request Ref.hello false ["identify"] None None Ref.callback_no_state;
               call_reset_all_oauth] Ref.opened)
    as (_ & _ & Hkey & Hsession & Hbot & _).
  split; [apply Hsession; reflexivity |].
  split; [apply Hbot; now exists Ref.the_bot | exact Hkey].
Defined.

Lemma login_phase_redirects_run :
  let r := _wrap_route Ref.hello false ["identify"] (Some (state_generator Ref.started))
             (Some (state_checker Ref.started)) (Ref.visit ∅ ∅) Ref.started in
  self' r = Ref.opened
  /\ trace r = [EvAuthorize (authorize_params Ref.started "https://rt.example/dashboard"
                               ["identify"])]
  /\ exists answer,
       outcome r = Ok answer
       /\ status answer = 302
       /\ location answer
          = Some ("https://discord.com/oauth2/authorize?client_id=1234"
                  +:+ "&redirect_uri=https:%2F%2Frt.example%2Fdashboard"
                  +:+ "&state=xkrt.example203.0.113.7").
Proof.
  pose proof (login_phase_redirects Ref.hello ["identify"] (Some (state_generator Ref.started))
                (Some (state_checker Ref.started)) (Ref.visit ∅ ∅) Ref.started Ref.the_bot)
    as Hlogin.
  destruct Hlogin as [Hrun Hredirect];
    [reflexivity | vm_compute; reflexivity | reflexivity | vm_compute; reflexivity |].
  cbv zeta. split; [rewrite Hrun; reflexivity |]. split; [rewrite Hrun; reflexivity |].
  destruct (Hredirect ("https://discord.com/oauth2/authorize?client_id=1234"
                       +:+ "&redirect_uri=https://rt.example/dashboard"))
    as (answer & Hout & Hstatus & Hlocation & _); [vm_compute; reflexivity |].
  exists answer. split; [exact Hout |]. split; [exact Hstatus |].
  rewrite Hlocation. vm_compute. reflexivity.
Defined.

(** The reference quoting keeps the characters of such a URL and
    rewrites a space and a vertical bar. *)
Example ref_quote_location_run :
  quote_location "https://rt.example/a?b=c&d=%2F" = "https://rt.example/a?b=c&d=%2F"
  /\ quote_location "a b|c" = "a+b%7Cc".
Proof. split; vm_compute; reflexivity. Qed.

Lemma forced_route_without_cookie_run :
  _wrap_route Ref.hello true ["identify"] None None Ref.callback_no_state Ref.started
  = {| outcome := Ref.hello (set_ctx_user Ref.callback_no_state None); self' := Ref.started;
       trace := [EvHandler None] |}.
Proof.
  apply (forced_route_without_cookie Ref.hello ["identify"] None None
           Ref.callback_no_state Ref.started Ref.the_bot).
  - reflexivity.
  - vm_compute. reflexivity.
Defined.

Lemma unreadable_cookie_raises_run :
  _wrap_route Ref.hello false ["identify"] None None Ref.junk_cookie Ref.started
  = {| outcome := Raise ValueError; self' := Ref.started; trace := [] |}
  /\ _wrap_route Ref.hello false ["identify"] None None Ref.stranger_cookie Ref.started
     = {| outcome := Raise (OtherError "NotFound"); self' := Ref.started;
          trace := [EvFetchUser 1] |}.
Proof.
  split.
  - destruct (unreadable_cookie_raises Ref.hello false ["identify"] None None
                Ref.junk_cookie Ref.started Ref.the_bot "bkhello" "hello"
                eq_refl ltac:(vm_compute; reflexivity) ltac:(discriminate)
                ltac:(vm_compute; reflexivity))
      as (Hjson & _ & _).
    apply Hjson. vm_compute. reflexivity.
  - destruct (unreadable_cookie_raises Ref.hello false ["identify"] None None
                Ref.stranger_cookie Ref.started Ref.the_bot "bk+;bob" "+;bob"
                eq_refl ltac:(vm_compute; reflexivity) ltac:(discriminate)
                ltac:(vm_compute; reflexivity))
      as (_ & _ & Hfetch).
    apply (Hfetch (CookieData 1 "bob") (JInt 1) 1 (OtherError "NotFound")).
    + vm_compute. reflexivity.
    + reflexivity.
    + reflexivity.
    + reflexivity.
    + discriminate.
Defined.

Lemma methods_before_startup_run :
  get_user_cookie "bk+01010;alice" Ref.starting
  = {| outcome := Raise AttributeError; self' := Ref.starting; trace := [] |}
  /\ get_userdata (JStr "tok") Ref.starting
     = {| outcome := Raise AttributeError; self' := open_session Ref.starting;
          trace := [EvUsersMe (JStr "tok")] |}
  /\ get_userdata (JStr "expired") Ref.starting
     = {| outcome := Raise (ClientResponseError "401, message='Unauthorized'");
          self' := open_session Ref.starting; trace := [EvUsersMe (JStr "expired")] |}.
Proof.
  split; [| split].
  - destruct (methods_before_startup "bk+01010;alice" (JStr "tok") Ref.starting eq_refl)
      as (Hcookie & _ & _).
    exact Hcookie.
  - destruct (methods_before_startup "bk+01010;alice" (JStr "tok") Ref.starting eq_refl)
      as (_ & Hbody & _).
    apply (Hbody "alice"). reflexivity.
  - destruct (methods_before_startup "bk+01010;alice" (JStr "expired") Ref.starting eq_refl)
      as (_ & _ & Herror).
    apply (Herror (ClientResponseError "401, message='Unauthorized'")). reflexivity.
Defined.

Lemma any_query_parameter_starts_exchange_run :
  head (trace (_wrap_route Ref.hello false ["identify"] None None Ref.callback_denied
                 Ref.started))
  = Some (EvToken (token_data Ref.started None "https://rt.example/dashboard")).
Proof.
  destruct (any_query_parameter_starts_exchange Ref.hello ["identify"] None None
              Ref.callback_denied Ref.started Ref.the_bot eq_refl
              ltac:(vm_compute; reflexivity)
              ltac:(apply (bool_decide_eq_true_1 _); vm_compute; reflexivity) I)
    as (Hhead & _ & _).
  exact Hhead.
Defined.

Lemma write_cookie_keeps_response_run :
  exists answer,
    outcome (_wrap_route Ref.themed false ["identify"] None None Ref.callback_no_state
               Ref.started) = Ok answer
    /\ status answer = 201
    /\ resp_cookies answer !! "session" = Some "bk+01010;alice"
    /\ resp_cookies answer !! "theme" = Some "dark".
Proof.
  destruct (write_cookie_keeps_response Ref.themed ["identify"] None None
              Ref.callback_no_state Ref.started Ref.the_bot
              (JObj [("access_token", JStr "tok"); ("token_type", JStr "Bearer")])
              (JStr "tok") Ref.alice
              {| status := 201; location := None; body := "created";
                 resp_cookies := {["theme" := "dark"; "session" := "stale"]} |}
              eq_refl ltac:(vm_compute; reflexivity)
              ltac:(apply (bool_decide_eq_true_1 _); vm_compute; reflexivity) I
              ltac:(vm_compute; reflexivity) eq_refl eq_refl eq_refl)
    as (answer & Hout & Hstatus & _ & _ & Hsession & Hothers).
  exists answer. split; [exact Hout |].
  split; [rewrite Hstatus; reflexivity |].
  split; [rewrite Hsession; vm_compute; reflexivity |].
  rewrite Hothers by discriminate. vm_compute. reflexivity.
Defined.

Lemma checker_dropped_type_error_run :
  require_login Ref.started false ["identify"] default_arg none_arg Ref.hello
    Ref.callback_good_state Ref.started
  = {| outcome := Raise TypeError; self' := Ref.started; trace := [] |}
  /\ status_of TypeError = None.
Proof.
  apply (checker_dropped_type_error Ref.hello ["identify"] none_arg
           Ref.callback_good_state Ref.started Ref.started Ref.the_bot).
  - reflexivity.
  - vm_compute. reflexivity.
  - apply (bool_decide_eq_true_1 _). vm_compute. reflexivity.
  - discriminate.
Defined.

Lemma redirect_uri_agreement_run :
  let first := _wrap_route Ref.hello false ["identify"] None None (Ref.visit ∅ ∅) Ref.started in
  let second := _wrap_route Ref.hello false ["identify"] None None Ref.callback_no_state
                  (self' first) in
  exists params data,
    trace first = [EvAuthorize params]
    /\ head (trace second) = Some (EvToken data)
    /\ List.In ("redirect_uri", "https://rt.example/dashboard") params
    /\ List.In ("redirect_uri", Some "https://rt.example/dashboard") data.
Proof.
  apply (redirect_uri_agreement Ref.hello ["identify"] None None (Ref.visit ∅ ∅)
           Ref.callback_no_state Ref.started Ref.the_bot).
  - reflexivity.
  - vm_compute. reflexivity.
  - reflexivity.
  - vm_compute. reflexivity.
  - vm_compute. reflexivity.
  - apply (bool_decide_eq_true_1 _). vm_compute. reflexivity.
  - exact I.
  - reflexivity.
  - reflexivity.
  - reflexivity.
Defined.

Lemma quote_query_without_question_mark_run :
  quote_query "https://discord.com/login/" = "https://discord.com/login%2F"
  /\ quote_query "https://discord.com/login" = "https://discord.com/login".
Proof.
  split.
  - destruct (quote_query_without_question_mark "https://discord.com/login"
                ltac:(vm_compute; reflexivity)) as [Hslash _].
    exact Hslash.
  - destruct (quote_query_without_question_mark "https://discord.com/logi"
                ltac:(vm_compute; reflexivity)) as [_ Hother].
    apply (Hother "n"%char); discriminate.
Defined.

Lemma quote_query_leaves_no_slash_run :
  exists rest,
    quote_query "https://discord.com/oauth2/authorize?redirect_uri=https://rt.example/dashboard"
    = "https://discord.com/oauth2/authorize?" +:+ rest
    /\ PyStr.find "/" rest = -1.
Proof.
  destruct (quote_query_leaves_no_slash "https://discord.com/oauth2/authorize"
              "redirect_uri=https://rt.example/dashboard" ltac:(vm_compute; reflexivity))
    as (rest & Heq & Hnone & _).
  exists rest. split; [exact Heq | exact Hnone].
Defined.

Lemma default_state_flow_run :
  head (trace (require_login Ref.started false ["identify"] default_arg default_arg Ref.hello
                 Ref.callback_good_state Ref.started))
  = Some (EvToken (token_data Ref.started (Some "ABC") "https://rt.example/dashboard"))
  /\ require_login Ref.started false ["identify"] default_arg default_arg Ref.hello
       Ref.callback_bad_state Ref.started
     = {| outcome := Raise (SanicException msg_bad_state 403); self' := Ref.started;
          trace := [] |}.
Proof.
  split.
  - pose proof (default_state_flow (cipher_law := ref_cipher_round_trip) Ref.hello ["identify"]
                  (Ref.visit ∅ ∅) Ref.callback_good_state Ref.started Ref.started Ref.the_bot)
      as Hflow.
    destruct Hflow as [Hsame _];
      [reflexivity | vm_compute; reflexivity | vm_compute; reflexivity |].
    rewrite Hsame by reflexivity. vm_compute. reflexivity.
  - destruct (default_state_flow (cipher_law := ref_cipher_round_trip) Ref.hello ["identify"]
                Ref.elsewhere Ref.callback_bad_state Ref.started Ref.started Ref.the_bot
                eq_refl ltac:(vm_compute; reflexivity) ltac:(vm_compute; reflexivity))
      as [_ Hother].
    apply Hother. vm_compute. discriminate.
Defined.

End Runs.

(** *** Runs against a failing Discord *)

Section FaultyRuns.
#[local] Existing Instances Ref.cipher Ref.codec Ref.faulty Ref.sanic.

Lemma exchange_errors_propagate_run :
  _wrap_route Ref.hello false ["identify"] None None Ref.callback_bad_code Ref.started
  = {| outcome := Raise (OtherError "Cannot connect to host discord.com:443");
       self' := Ref.opened;
       trace := [EvToken (token_data Ref.started (Some "XYZ")
                            "https://rt.example/dashboard")] |}.
Proof.
  destruct (exchange_errors_propagate Ref.hello ["identify"] None None
              Ref.callback_bad_code Ref.started Ref.the_bot
              (OtherError "Cannot connect to host discord.com:443")
              eq_refl ltac:(vm_compute; reflexivity)
              ltac:(apply (bool_decide_eq_true_1 _); vm_compute; reflexivity) I
              ltac:(intros detail; discriminate))
    as (Htoken & _ & _).
  rewrite Htoken by (vm_compute; reflexivity). vm_compute. reflexivity.
Defined.

Lemma token_without_access_token_run :
  _wrap_route Ref.hello false ["identify"] None None Ref.callback_no_state Ref.started
  = {| outcome := Raise (KeyError "access_token"); self' := Ref.opened;
       trace := [EvToken (token_data Ref.started (Some "ABC")
                            "https://rt.example/dashboard")] |}.
Proof.
  destruct (token_without_access_token Ref.hello ["identify"] None None
              Ref.callback_no_state Ref.started Ref.the_bot [("token_type", JStr "Bearer")]
              eq_refl ltac:(vm_compute; reflexivity)
              ltac:(apply (bool_decide_eq_true_1 _); vm_compute; reflexivity) I
              ltac:(vm_compute; reflexivity) eq_refl)
    as [Hrun _].
  rewrite Hrun. vm_compute. reflexivity.
Defined.

(** The login phase passes the authorize endpoint's error on. *)
Example login_phase_error_run :
  _wrap_route Ref.hello false ["identify"] None None (Ref.visit ∅ ∅) Ref.started
  = {| outcome := Raise (ClientResponseError "503, message='Service Unavailable'");
       self' := Ref.opened;
       trace := [EvAuthorize (authorize_params Ref.started "https://rt.example/dashboard"
                                ["identify"])] |}.
Proof. vm_compute. reflexivity. Qed.

End FaultyRuns.

(** *** Runs with a cookie payload that has no [id] *)

Section LenientRuns.
#[local] Existing Instances Ref.cipher Ref.lenient Ref.discord Ref.sanic.

Example cookie_without_id_run :
  _wrap_route Ref.hello false ["identify"] None None Ref.junk_cookie Ref.started
  = {| outcome := Raise (KeyError "id"); self' := Ref.started; trace := [] |}.
Proof. vm_compute. reflexivity. Qed.

End LenientRuns.
